(** * arc-export: from the Arc sidebar document to a Netscape bookmark file

    A shallow embedding of [src/main.py], lines 339-472: the functions
    [convert_json_to_html], [get_spaces], [convert_to_bookmarks] (with its
    inner [recurse_into_children]), [convert_bookmarks_to_html] (with its
    inner [traverse_dict]), [write_html] and the last four lines of [main].

    Conventions of the embedding.
    - A loaded document is a value of [json]; a Python [dict] is an
      association list in insertion order (the order Python 3.7 and later
      iterate a dict in, and the order [json.load] fills it in).
    - A Python exception is a value of [exn]; code that may raise returns
      a [result].
    - The interpreter's recursion limit is the [fuel] of the two recursive
      functions, [recurse_into_children] and [traverse_dict]: the number
      of nested calls it leaves room for. Running out of it is
      [RecursionError].
    - Calls to [logging] have no effect on the values computed and are
      left out, and so is [bookmarks_count], which only a log line reads
      (it is the number of [Bookmark] nodes of the forest returned).
    - A JSON number is loaded as an [int] (a [Z]) or as a [float] (a
      [spec_float], sign, mantissa and exponent); text is a [string] of
      UTF-8 bytes. *)

From Stdlib Require Import List String Ascii ZArith Bool Arith Lia.
From Stdlib Require Import DecimalString.
From Stdlib Require Import Floats.SpecFloat.
Import ListNotations.

Local Open Scope list_scope.
Local Open Scope string_scope.

(** ** Values and exceptions *)

#[local] Set Warnings "-register-all".

Inductive json : Type :=
| JNull
| JBool (b : bool)
| JInt (z : Z)
| JFloat (f : spec_float)
| JStr (s : string)
| JArr (l : list json)
| JObj (kvs : list (string * json)).

(** A dict with string keys, as [json.load] builds one for a JSON object. *)
Definition obj : Type := list (string * json).

Inductive exn : Type :=
| KeyError
| IndexError
| TypeError
| ValueError
| AttributeError
| RecursionError.

Inductive result (A : Type) : Type :=
| Ok (a : A)
| Error (e : exn).

Arguments Ok {A} a.
Arguments Error {A} e.

Definition bind {A B : Type} (m : result A) (f : A -> result B) : result B :=
  match m with
  | Ok a => f a
  | Error e => Error e
  end.

Notation "x <- m ;; k" := (bind m (fun x => k))
  (at level 61, m at next level, right associativity).

(** A [for] loop whose body may raise: the state is threaded from one
    element to the next and the first exception ends the loop. *)
Fixpoint for_each {A S : Type} (body : S -> A -> result S) (l : list A) (s : S)
  : result S :=
  match l with
  | [] => Ok s
  | a :: l' => s' <- body s a ;; for_each body l' s'
  end.

(** ** Python operations on loaded values *)

Fixpoint dict_lookup {V : Type} (k : string) (d : list (string * V)) : option V :=
  match d with
  | [] => None
  | (k', v) :: d' => if String.eqb k' k then Some v else dict_lookup k d'
  end.

(** [k in d] for a dict [d]. *)
Definition dict_has {V : Type} (d : list (string * V)) (k : string) : bool :=
  match dict_lookup k d with
  | Some _ => true
  | None => false
  end.

(** [d.get(k, default)]. *)
Definition dict_get (d : obj) (k : string) (default : json) : json :=
  match dict_lookup k d with
  | Some v => v
  | None => default
  end.

(** [d[k] = v] on a dict kept in insertion order: an existing key keeps its
    place and takes the new value, a new key goes to the end. *)
Fixpoint dict_set {K V : Type} (eqb : K -> K -> bool) (k : K) (v : V)
  (d : list (K * V)) : list (K * V) :=
  match d with
  | [] => [(k, v)]
  | (k', v') :: d' =>
      if eqb k' k then (k', v) :: d' else (k', v') :: dict_set eqb k v d'
  end.

(** [v[k]] for a string subscript [k]: only a dict accepts one. *)
Definition py_getitem (v : json) (k : string) : result json :=
  match v with
  | JObj d =>
      match dict_lookup k d with
      | Some x => Ok x
      | None => Error KeyError
      end
  | _ => Error TypeError
  end.

(** [needle in s] for two strings. *)
Fixpoint contains (needle s : string) : bool :=
  String.prefix needle s
  || match s with
     | EmptyString => false
     | String _ s' => contains needle s'
     end.

Definition is_str (needle : string) (v : json) : bool :=
  match v with
  | JStr s => String.eqb s needle
  | _ => false
  end.

(** [needle in c] for a string [needle]: key membership in a dict, element
    membership in a list, substring test in a string, [TypeError] on
    [None], a boolean or a number. *)
Definition py_in (needle : string) (c : json) : result bool :=
  match c with
  | JObj d => Ok (dict_has d needle)
  | JArr l => Ok (existsb (is_str needle) l)
  | JStr s => Ok (contains needle s)
  | _ => Error TypeError
  end.

(** Truth value of a loaded value, as [or] and [if] test it. *)
Definition truthy (v : json) : bool :=
  match v with
  | JNull => false
  | JBool b => b
  | JInt z => negb (Z.eqb z 0)
  | JFloat f => match f with S754_zero _ => false | _ => true end
  | JStr s => negb (String.eqb s EmptyString)
  | JArr l => match l with [] => false | _ => true end
  | JObj d => match d with [] => false | _ => true end
  end.

(** [a or b]: [b] is only looked at when [a] is falsy, so an exception that
    evaluating [b] would raise is lost when [a] is truthy. *)
Definition py_or (a : json) (b : result json) : result json :=
  if truthy a then Ok a else b.

(** The characters of a string of UTF-8 bytes: a byte [10xxxxxx] continues
    the character begun before it. *)
Definition is_continuation (c : ascii) : bool :=
  let n := nat_of_ascii c in (128 <=? n)%nat && (n <? 192)%nat.

Fixpoint utf8_split (s : string) : string * list string :=
  match s with
  | EmptyString => (EmptyString, [])
  | String c s' =>
      let (pending, chars) := utf8_split s' in
      if is_continuation c then (String c pending, chars)
      else (EmptyString, String c pending :: chars)
  end.

Definition utf8_chars (s : string) : list string := snd (utf8_split s).

(** The elements a [for] loop or [enumerate] goes through. *)
Definition py_iter (v : json) : result (list json) :=
  match v with
  | JArr l => Ok l
  | JObj d => Ok (map (fun kv => JStr (fst kv)) d)
  | JStr s => Ok (map JStr (utf8_chars s))
  | _ => Error TypeError
  end.

(** [len(v)]. *)
Definition py_len (v : json) : result nat :=
  l <- py_iter v ;; Ok (List.length l).

(** [v[i]] for a non-negative integer subscript [i]. A dict loaded from
    JSON has string keys only, so no integer is a key of it. *)
Definition py_index (v : json) (i : nat) : result json :=
  match v with
  | JArr l =>
      match nth_error l i with
      | Some x => Ok x
      | None => Error IndexError
      end
  | JStr s =>
      match nth_error (utf8_chars s) i with
      | Some c => Ok (JStr c)
      | None => Error IndexError
      end
  | JObj _ => Error KeyError
  | _ => Error TypeError
  end.

Definition str_of_Z (z : Z) : string := NilZero.string_of_int (Z.to_int z).

(** ** Identifiers as dict keys

    A value used as a dict key must be hashable: a list or a dict is not.
    Numbers that are equal are one and the same key, whatever their type:
    [True], [1] and [1.0], or [False], [0], [0.0] and [-0.0]. A key
    therefore holds the number itself: an integer, or, for a float that is
    no integer, its sign, odd mantissa and negative exponent. *)

Inductive key : Type :=
| KNone
| KNum (z : Z)
| KFrac (negative : bool) (m : positive) (e : Z)
| KInf (negative : bool)
| KNaN
| KStr (s : string).

(** [m * 2 ^ e] with the factors 2 of [m] moved into the exponent. *)
Fixpoint odd_part (m : positive) (e : Z) : positive * Z :=
  match m with
  | xO p => odd_part p (e + 1)
  | _ => (m, e)
  end.

Definition float_key (f : spec_float) : key :=
  match f with
  | S754_zero _ => KNum 0
  | S754_infinity s => KInf s
  | S754_nan => KNaN
  | S754_finite s m e =>
      let (m', e') := odd_part m e in
      if (0 <=? e')%Z then
        KNum ((if s then Z.neg m' else Z.pos m') * 2 ^ e')
      else KFrac s m' e'
  end.

Definition to_key (v : json) : option key :=
  match v with
  | JNull => Some KNone
  | JBool b => Some (KNum (if b then 1 else 0)%Z)
  | JInt z => Some (KNum z)
  | JFloat f => Some (float_key f)
  | JStr s => Some (KStr s)
  | JArr _ | JObj _ => None
  end.

(** Two keys are the same key of a dict. [json.load] gives every [NaN]
    of a document the one object [json.decoder.NaN], so [NaN] is one
    key. *)
Definition key_eqb (a b : key) : bool :=
  match a, b with
  | KNone, KNone => true
  | KNum x, KNum y => Z.eqb x y
  | KFrac s m e, KFrac s' m' e' => Bool.eqb s s' && Pos.eqb m m' && Z.eqb e e'
  | KInf s, KInf s' => Bool.eqb s s'
  | KNaN, KNaN => true
  | KStr s, KStr t => String.eqb s t
  | _, _ => false
  end.

(** [v == k] where [k] is a key: a list or a dict equals no key, and
    [NaN] equals nothing, itself included. *)
Definition py_eq (v : json) (k : key) : bool :=
  match to_key v with
  | Some KNaN => false
  | Some k' => key_eqb k' k
  | None => false
  end.

(** [str(v)] on a float, a list or a dict is Python's [repr], which the
    conversion only passes through: it is the variable [py_repr] of the
    section below. [no_repr] stands in for it at the example documents,
    where [str] meets strings only. *)
Definition no_repr : json -> string := fun _ => EmptyString.

Section Conversion.

Variable py_repr : json -> string.

(** [str(v)], also what an f-string puts in place of [{v}]. *)
Definition py_str (v : json) : string :=
  match v with
  | JStr s => s
  | JNull => "None"
  | JBool true => "True"
  | JBool false => "False"
  | JInt z => str_of_Z z
  | JFloat _ | JArr _ | JObj _ => py_repr v
  end.

(** ** [get_spaces] (lines 355-384) *)

(** [spaces_names]: a dict with the two keys [pinned] and [unpinned], each
    a dict from an identifier's text to a title. *)
Record spaces_names : Type := {
  pinned : list (string * json);
  unpinned : list (string * json)
}.

Definition set_pinned (k : string) (title : json) (sn : spaces_names) : spaces_names :=
  {| pinned := dict_set String.eqb k title (pinned sn); unpinned := unpinned sn |}.

Definition set_unpinned (k : string) (title : json) (sn : spaces_names) : spaces_names :=
  {| pinned := pinned sn; unpinned := dict_set String.eqb k title (unpinned sn) |}.

(** The body of [for i in range(len(containers))] (lines 374-378). *)
Definition mark_container (title containers : json) (sn : spaces_names) (i : nat)
  : result spaces_names :=
  c <- py_index containers i ;;
  match c with
  | JObj m =>
      if dict_has m "pinned" then
        nxt <- py_index containers (i + 1) ;;
        Ok (set_pinned (py_str nxt) title sn)
      else if dict_has m "unpinned" then
        nxt <- py_index containers (i + 1) ;;
        Ok (set_unpinned (py_str nxt) title sn)
      else Ok sn
  | _ => Ok sn
  end.

(** The local variables of [get_spaces] that the loop over the spaces
    updates. *)
Record spaces_loop : Type := {
  names : spaces_names;
  spaces_count : nat;
  n : Z
}.

(** Lines 363-367: the title of the entry and the counter after it. *)
Definition title_of (space : json) (n : Z) : result (json * Z) :=
  titled <- py_in "title" space ;;
  if titled then
    t <- py_getitem space "title" ;; Ok (t, n)
  else
    Ok (JStr ("Space " ++ str_of_Z n), (n + 1)%Z).

(** The body of [for space in spaces] (lines 363-380). *)
Definition each_space (st : spaces_loop) (space : json) : result spaces_loop :=
  tn <- title_of space (n st) ;;
  match space with
  | JObj _ =>
      containers <- py_getitem space "newContainerIDs" ;;
      len <- py_len containers ;;
      sn <- for_each (mark_container (fst tn) containers) (seq 0 len) (names st) ;;
      Ok {| names := sn; spaces_count := S (spaces_count st); n := snd tn |}
  | _ =>
      Ok {| names := names st; spaces_count := spaces_count st; n := snd tn |}
  end.

Definition get_spaces_init : spaces_loop :=
  {| names := {| pinned := []; unpinned := [] |}; spaces_count := 0; n := 1 |}.

Definition get_spaces (spaces : json) : result spaces_names :=
  l <- py_iter spaces ;;
  st <- for_each each_space l get_spaces_init ;;
  Ok (names st).

(** ** [convert_to_bookmarks] (lines 387-428) *)

(** A node of the forest: the dict with [type] equal to [folder] or to
    [bookmark] that lines 401-406, 410-414 and 419-423 build. *)
Inductive node : Type :=
| Folder (title : json) (children : list node)
| Bookmark (title url : json).

(** [item_dict]: identifier to item, in insertion order. *)
Definition index : Type := list (key * obj).

(** One step of the comprehension of line 392. *)
Definition index_item (d : index) (item : json) : result index :=
  match item with
  | JObj o =>
      id <- py_getitem item "id" ;;
      match to_key id with
      | Some k => Ok (dict_set key_eqb k o d)
      | None => Error TypeError
      end
  | _ => Ok d
  end.

Definition item_dict (items : list json) : result index :=
  for_each index_item items [].

(** Line 399: ["data" in item and "tab" in item["data"]]. *)
Definition has_tab (item : obj) : result bool :=
  if dict_has item "data" then
    data <- py_getitem (JObj item) "data" ;; py_in "tab" data
  else Ok false.

(** [item["data"]["tab"].get(k, "")] (lines 403 and 405). *)
Definition tab_get (item : obj) (k : string) : result json :=
  data <- py_getitem (JObj item) "data" ;;
  tab <- py_getitem data "tab" ;;
  match tab with
  | JObj t => Ok (dict_get t k (JStr EmptyString))
  | _ => Error AttributeError
  end.

(** The body of [for item_id, item in item_dict.items()] (lines 398-415);
    [recurse] is the recursive call. *)
Definition add_child (recurse : key -> result (list node)) (parent_id : key)
  (children : list node) (entry : key * obj) : result (list node) :=
  let (item_id, item) := entry in
  if py_eq (dict_get item "parentID" JNull) parent_id then
    tab <- has_tab item ;;
    if tab then
      title <- py_or (dict_get item "title" JNull) (tab_get item "savedTitle") ;;
      url <- tab_get item "savedURL" ;;
      Ok (children ++ [Bookmark title url])%list
    else if dict_has item "title" then
      title <- py_getitem (JObj item) "title" ;;
      sub <- recurse item_id ;;
      Ok (children ++ [Folder title sub])%list
    else Ok children
  else Ok children.

Fixpoint recurse_into_children (fuel : nat) (item_dict : index) (parent_id : key)
  : result (list node) :=
  match fuel with
  | O => Error RecursionError
  | S fuel' =>
      for_each (add_child (recurse_into_children fuel' item_dict) parent_id)
        item_dict []
  end.

(** The body of [for space_id, space_name in spaces["pinned"].items()]
    (lines 419-424). *)
Definition add_space (fuel : nat) (item_dict : index) (bookmarks : list node)
  (space : string * json) : result (list node) :=
  children <- recurse_into_children fuel item_dict (KStr (fst space)) ;;
  Ok (bookmarks ++ [Folder (snd space) children])%list.

(** The value returned is the list under the key [bookmarks]. *)
Definition convert_to_bookmarks (fuel : nat) (spaces : spaces_names) (items : json)
  : result (list node) :=
  l <- py_iter items ;;
  d <- item_dict l ;;
  for_each (add_space fuel d) (pinned spaces) [].

(** ** [convert_bookmarks_to_html] (lines 431-457) *)

Definition nl : string := String "010"%char EmptyString.
Definition tab_char : string := String "009"%char EmptyString.
Definition dquote : string := String "034"%char EmptyString.

(** ["\t" * level]. *)
Fixpoint tabs (level : nat) : string :=
  match level with
  | O => EmptyString
  | S k => tab_char ++ tabs k
  end.

(** The literal of lines 434-438. *)
Definition html_header : string :=
  "<!DOCTYPE NETSCAPE-Bookmark-file-1>" ++ nl ++
  "<META HTTP-EQUIV=" ++ dquote ++ "Content-Type" ++ dquote ++
  " CONTENT=" ++ dquote ++ "text/html; charset=UTF-8" ++ dquote ++ ">" ++ nl ++
  "<TITLE>Bookmarks</TITLE>" ++ nl ++
  "<H1>Bookmarks</H1>" ++ nl ++
  "<DL><p>".

(** The body of [for item in d] (lines 443-449): [html_str] is the text so
    far, the value is the text after the item, and [traverse] is the
    recursive call. *)
Definition traverse_item (traverse : list node -> string -> nat -> result string)
  (level : nat) (html_str : string) (item : node) : result string :=
  let indent := tabs level in
  match item with
  | Folder title children =>
      let html_str := html_str ++ (nl ++ indent ++ "<DT><H3>" ++ py_str title ++ "</H3>") in
      let html_str := html_str ++ (nl ++ indent ++ "<DL><p>") in
      html_str <- traverse children html_str (level + 1) ;;
      Ok (html_str ++ (nl ++ indent ++ "</DL><p>"))
  | Bookmark title url =>
      Ok (html_str ++ (nl ++ indent ++ "<DT><A HREF=" ++ dquote ++ py_str url ++ dquote
                       ++ ">" ++ py_str title ++ "</A>"))
  end.

(** [traverse_dict] is entered at the depth at which [recurse_into_children]
    is, so the two have the same [fuel]. *)
Fixpoint traverse_dict (fuel : nat) (d : list node) (html_str : string) (level : nat)
  : result string :=
  match fuel with
  | O => Error RecursionError
  | S fuel' => for_each (traverse_item (traverse_dict fuel') level) d html_str
  end.

Definition convert_bookmarks_to_html (fuel : nat) (bookmarks : list node)
  : result string :=
  let html_str := html_header in
  html_str <- traverse_dict fuel bookmarks html_str 1 ;;
  Ok (html_str ++ (nl ++ "</DL><p>")).

(** ** [convert_json_to_html] (lines 339-352) *)

(** Line 342: [next(i + 1 for i, c in enumerate(containers) if "global" in c)],
    with [StopIteration] turned into [ValueError] by lines 343-344. *)
Fixpoint find_target (containers : list json) (i : nat) : result nat :=
  match containers with
  | [] => Error ValueError
  | c :: rest =>
      found <- py_in "global" c ;;
      if found then Ok (i + 1) else find_target rest (i + 1)
  end.

(** Lines 346-352 once [json_data["sidebar"]["containers"][target]] is the
    container [c]. *)
Definition convert_container (fuel : nat) (c : json) : result string :=
  raw_spaces <- py_getitem c "spaces" ;;
  spaces <- get_spaces raw_spaces ;;
  items <- py_getitem c "items" ;;
  bookmarks <- convert_to_bookmarks fuel spaces items ;;
  convert_bookmarks_to_html fuel bookmarks.

Definition convert_json_to_html (fuel : nat) (json_data : json) : result string :=
  sidebar <- py_getitem json_data "sidebar" ;;
  containers <- py_getitem sidebar "containers" ;;
  cs <- py_iter containers ;;
  target <- find_target cs 0 ;;
  c <- py_index containers target ;;
  convert_container fuel c.

(** ** [write_html] (lines 460-472) and the end of [main] (lines 109-112) *)

(** The files written so far, the latest first, each with its path. *)
Definition files : Type := list (string * string).

(** [current_date] is what [datetime.now().strftime] returns at line 466:
    digits and underscores, so [with_suffix] adds [.html] to it. Opening
    the file is taken to succeed. *)
Definition write_html (current_date html_content : string) (output : option string)
  (fs : files) : files :=
  let output_file :=
    match output with
    | Some path => path
    | None => "arc_bookmarks_" ++ current_date ++ ".html"
    end in
  (output_file, html_content) :: fs.

(** Lines 109-112, with [data] the document [read_json] returned and
    [output] the value of [args.output]. *)
Definition main (fuel : nat) (current_date : string) (output : option string)
  (data : json) (fs : files) : files * result unit :=
  match convert_json_to_html fuel data with
  | Ok html => (write_html current_date html output fs, Ok tt)
  | Error e => (fs, Error e)
  end.

(** ** The serializer as section 4.3 of the specification words it

    The output is a sequence of lines separated by line feeds (character
    10): the five lines of the header, the lines of each node in
    depth-first order, each behind one tab (character 9) per level, and
    the closing line. Attribute values stand between double quotes
    (character 34). Nothing below refers to the constants of the code. *)

(** [level] tab characters. *)
Definition indentation (level : nat) : string :=
  string_of_list_ascii (repeat "009"%char level).

(** [s] between double quotes. *)
Definition quoted (s : string) : string :=
  String "034"%char (s ++ String "034"%char EmptyString).

Definition header_lines : list string :=
  [ "<!DOCTYPE NETSCAPE-Bookmark-file-1>";
    "<META HTTP-EQUIV=" ++ quoted "Content-Type" ++
    " CONTENT=" ++ quoted "text/html; charset=UTF-8" ++ ">";
    "<TITLE>Bookmarks</TITLE>";
    "<H1>Bookmarks</H1>";
    "<DL><p>" ].

Fixpoint node_lines (level : nat) (item : node) : list string :=
  match item with
  | Folder title children =>
      (indentation level ++ "<DT><H3>" ++ py_str title ++ "</H3>")
      :: (indentation level ++ "<DL><p>")
      :: List.app (flat_map (node_lines (S level)) children)
           [indentation level ++ "</DL><p>"]
  | Bookmark title url =>
      [indentation level ++ "<DT><A HREF=" ++ quoted (py_str url)
       ++ ">" ++ py_str title ++ "</A>"]
  end.

Definition serialize (forest : list node) : string :=
  String.concat (String "010"%char EmptyString)
    (header_lines ++ flat_map (node_lines 1) forest ++ ["</DL><p>"])%list.

(** The number of folders on the longest chain of nested folders. *)
Fixpoint node_height (item : node) : nat :=
  match item with
  | Folder _ children => S (list_max (map node_height children))
  | Bookmark _ _ => 0
  end.

Definition forest_height (forest : list node) : nat :=
  list_max (map node_height forest).

(** The lines [ls], each behind a line feed. *)
Fixpoint lines_text (ls : list string) : string :=
  match ls with
  | [] => EmptyString
  | l :: ls' => String "010"%char (l ++ lines_text ls')
  end.

(** ** Shapes of the entries of the items list *)

(** [isinstance(v, dict)]. *)
Definition is_dict (v : json) : bool :=
  match v with
  | JObj _ => true
  | _ => false
  end.

(** The entry is not a dict, or it is one with the key [id]. *)
Definition has_id (v : json) : bool :=
  match v with
  | JObj o => dict_has o "id"
  | _ => true
  end.

(** The entry does not stop the comprehension of line 392: it is not a
    dict, or it is one whose [id] is there and hashable. *)
Definition indexable (v : json) : bool :=
  match v with
  | JObj o =>
      match dict_lookup "id" o with
      | Some id => match to_key id with Some _ => true | None => false end
      | None => false
      end
  | _ => true
  end.

(** ** The items list read in source order *)

(** [item["id"]] as a key, when the item has one that is hashable. *)
Definition item_key (item : obj) : option key :=
  match dict_lookup "id" item with
  | Some id => to_key id
  | None => None
  end.

(** The dicts of the items list under their identifiers, in list order. *)
Fixpoint item_entries (items : list json) : index :=
  match items with
  | [] => []
  | JObj o :: rest =>
      match item_key o with
      | Some k => (k, o) :: item_entries rest
      | None => item_entries rest
      end
  | _ :: rest => item_entries rest
  end.

Definition in_keys (k : key) (ks : list key) : bool := existsb (key_eqb k) ks.

(** The keys of [ks], each at the place where it first occurs. *)
Fixpoint first_occurrences (ks : list key) : list key :=
  match ks with
  | [] => []
  | k :: ks' => k :: filter (fun k' => negb (key_eqb k' k)) (first_occurrences ks')
  end.

(** ** Items that leave no node *)

(** Neither branch of lines 399 and 409 is taken: no [tab] in the
    payload, and no title. *)
Definition is_dropped (item : obj) : bool :=
  match has_tab item with
  | Ok false => negb (dict_has item "title")
  | _ => false
  end.

(** [item.get("parentID")] as a key. *)
Definition parent_key (item : obj) : option key :=
  to_key (dict_get item "parentID" JNull).

(** [k] is the root identifier of a pinned space. *)
Definition is_root (spaces : spaces_names) (k : key) : bool :=
  existsb (fun space => key_eqb (KStr (fst space)) k) (pinned spaces).

(** The entries of an index that a set [gone] of identifiers leaves. *)
Definition kept (gone : key -> bool) (e : key * obj) : bool := negb (gone (fst e)).

(** The items list without the dicts whose identifier is in [gone]. *)
Definition without (gone : list key) (items : list json) : list json :=
  filter (fun x =>
            match x with
            | JObj o =>
                match item_key o with
                | Some k => negb (in_keys k gone)
                | None => true
                end
            | _ => true
            end) items.

(** ** Example documents *)

Definition marker (name : string) : json := JObj [(name, JObj [])].

Definition tab_payload (saved_title saved_url : string) : json :=
  JObj [("tab", JObj [("savedTitle", JStr saved_title); ("savedURL", JStr saved_url)])].

(** A space titled [Work] whose pinned root is [A] and unpinned root [U]. *)
Definition ex_space_work : json :=
  JObj [("title", JStr "Work");
        ("newContainerIDs", JArr [marker "pinned"; JStr "A"; marker "unpinned"; JStr "U"])].

(** The item that carries the root identifier [A]: no tab, no title. *)
Definition ex_item_root : obj := [("id", JStr "A")].

(** A saved tab under [A] with a title of its own. *)
Definition ex_item_tab : obj :=
  [("id", JStr "B"); ("parentID", JStr "A"); ("title", JStr "X");
   ("data", tab_payload "Saved" "https://x")].

(** An item under [A] with neither tab nor title, and a saved tab under it. *)
Definition ex_item_bare : obj := [("id", JStr "C"); ("parentID", JStr "A")].

Definition ex_item_under_bare : obj :=
  [("id", JStr "D"); ("parentID", JStr "C"); ("title", JStr "Y");
   ("data", tab_payload "Hidden" "https://y")].

Definition ex_items : list json :=
  [JStr "A"; JObj ex_item_root; JStr "B"; JObj ex_item_tab].

(** The index of [ex_items]. *)
Definition ex_index : index := [(KStr "A", ex_item_root); (KStr "B", ex_item_tab)].

Definition ex_container : json :=
  JObj [("spaces", JArr [JStr "S1"; ex_space_work]); ("items", JArr ex_items)].

Definition ex_sidebar : json := JObj [("containers", JArr [marker "global"; ex_container])].

Definition ex_document : json := JObj [("sidebar", ex_sidebar)].

(** What [get_spaces] returns for [ex_space_work]. *)
Definition ex_pinned_work : spaces_names :=
  {| pinned := [("A", JStr "Work")]; unpinned := [("U", JStr "Work")] |}.

(** A container that holds the [global] key together with spaces and items
    of its own, followed by another container. *)
Definition ex_marked_container : json :=
  JObj [("global", JObj []);
        ("spaces", JArr [JObj [("title", JStr "Marked");
                               ("newContainerIDs", JArr [marker "pinned"; JStr "A"])]]);
        ("items", JArr [])].

Definition ex_next_container : json :=
  JObj [("spaces", JArr [JObj [("title", JStr "Next");
                               ("newContainerIDs", JArr [marker "pinned"; JStr "A"])]]);
        ("items", JArr [])].

Definition ex_marked_sidebar : json :=
  JObj [("containers", JArr [ex_marked_container; ex_next_container])].

Definition ex_marked_document : json := JObj [("sidebar", ex_marked_sidebar)].

(** A document with no [global] anywhere. *)
Definition ex_plain_sidebar : json :=
  JObj [("containers", JArr [JObj [("spaces", JArr []); ("items", JArr [])]])].

Definition ex_plain_document : json := JObj [("sidebar", ex_plain_sidebar)].

(** ** The titles as section 4.1 of the specification words them *)

(** The explicit title of each space, else [Space N] for the N-th
    untitled space, [n] being the number of the next one. *)
Fixpoint effective_titles (spaces : list obj) (n : Z) : list json :=
  match spaces with
  | [] => []
  | space :: rest =>
      match dict_lookup "title" space with
      | Some t => t :: effective_titles rest n
      | None => JStr ("Space " ++ str_of_Z n) :: effective_titles rest (n + 1)
      end
  end.

(** Recording the roots of one space under a given title (lines 371-378). *)
Definition mark_space (sn : spaces_names) (titled : obj * json)
  : result spaces_names :=
  containers <- py_getitem (JObj (fst titled)) "newContainerIDs" ;;
  len <- py_len containers ;;
  for_each (mark_container (snd titled) containers) (seq 0 len) sn.

(** ** Items that become folders *)

(** The branch of lines 409-415 is taken: no [tab] in the payload, and
    a title. *)
Definition is_folder (item : obj) : bool :=
  match has_tab item with
  | Ok false => dict_has item "title"
  | _ => false
  end.


(** ** Looking an identifier up *)

(** [item_dict.get(k)]: the item under the key [k] of an index. *)
Definition index_lookup (k : key) (d : index) : option obj :=
  match find (fun e => key_eqb (fst e) k) d with
  | Some e => Some (snd e)
  | None => None
  end.

(** The last of the entries whose identifier is [k]. *)
Fixpoint last_entry (k : key) (entries : index) : option obj :=
  match entries with
  | [] => None
  | (k', o) :: rest =>
      match last_entry k rest with
      | Some later => Some later
      | None => if key_eqb k' k then Some o else None
      end
  end.


(** ** Well-formed entries of the spaces list *)

(** A dict that holds the key [pinned] or [unpinned] (lines 374-377). *)
Definition is_marker (c : json) : bool :=
  match c with
  | JObj m => dict_has m "pinned" || dict_has m "unpinned"
  | _ => false
  end.

(** Every marker of the list has an entry after it. *)
Fixpoint markers_followed (l : list json) : bool :=
  match l with
  | [] => true
  | c :: rest =>
      (negb (is_marker c) || match rest with [] => false | _ :: _ => true end)
      && markers_followed rest
  end.

(** A dict whose [newContainerIDs] is a list in which every marker is
    followed by an entry, or an identifier string without [title] in it. *)
Definition wellformed_space (v : json) : bool :=
  match v with
  | JObj space =>
      match dict_lookup "newContainerIDs" space with
      | Some (JArr l) => markers_followed l
      | _ => false
      end
  | JStr s => negb (contains "title" s)
  | _ => false
  end.


(** ** Further example items *)

(** A titled item without a tab that names itself as its parent. *)
Definition ex_item_loop : obj :=
  [("id", JStr "L"); ("parentID", JStr "L"); ("title", JStr "Loop")].

Definition ex_loop_index : index := [(KStr "L", ex_item_loop)].

(** A titled item without a tab under [A], and a saved tab under it. *)
Definition ex_item_folder : obj :=
  [("id", JStr "F"); ("parentID", JStr "A"); ("title", JStr "News")].

Definition ex_item_in_folder : obj :=
  [("id", JStr "G"); ("parentID", JStr "F"); ("data", tab_payload "Saved" "https://g")].

(** Two items that carry the identifier [A], with a saved tab between
    them. *)
Definition ex_item_root_again : obj := [("id", JStr "A"); ("title", JStr "again")].

Definition ex_items_twice : list json :=
  [JObj ex_item_root; JObj ex_item_tab; JObj ex_item_root_again].

(** An untitled space that names the root [A] once more. *)
Definition ex_space_untitled : obj :=
  [("newContainerIDs", JArr [marker "pinned"; JStr "A"])].


(** ** Counting the entries of the spaces list *)

(** A dict that holds the key [title]. *)
Definition has_title (v : json) : bool :=
  match v with
  | JObj m => dict_has m "title"
  | _ => false
  end.

(** ** The bookmarks of a forest *)

(** The title and the url of every bookmark of a node, at any depth, in
    the order of the output. *)
Fixpoint bookmarks_in (item : node) : list (json * json) :=
  match item with
  | Folder _ children => flat_map bookmarks_in children
  | Bookmark title url => [(title, url)]
  end.


(** * Properties *)

(** ** Loops and the error monad *)

Lemma for_each_app {A S : Type} (body : S -> A -> result S) (l1 l2 : list A) (s : S) :
  for_each body (l1 ++ l2)%list s = s' <- for_each body l1 s ;; for_each body l2 s'.
Proof.
  revert s. induction l1 as [|a l1 IH]; intros s; simpl; [reflexivity|].
  destruct (body s a) as [s'|e]; simpl; [apply IH | reflexivity].
Qed.

Lemma for_each_total {A S : Type} (body : S -> A -> result S) (l : list A) :
  (forall s a, In a l -> exists s', body s a = Ok s') ->
  forall s, exists s', for_each body l s = Ok s'.
Proof.
  induction l as [|a l IH]; intros Hbody s; simpl.
  - exists s. reflexivity.
  - destruct (Hbody s a (or_introl eq_refl)) as [s1 Hs1]. rewrite Hs1. simpl.
    apply IH. intros s2 b Hb. apply Hbody. right. exact Hb.
Qed.

Lemma for_each_ext {A S : Type} (f g : S -> A -> result S) (l : list A) :
  (forall s a, In a l -> f s a = g s a) ->
  forall s, for_each f l s = for_each g l s.
Proof.
  induction l as [|a l IH]; intros Hfg s; simpl; [reflexivity|].
  rewrite (Hfg s a (or_introl eq_refl)).
  destruct (g s a) as [s'|e]; simpl; [|reflexivity].
  apply IH. intros s2 b Hb. apply Hfg. right. exact Hb.
Qed.

(** ** Text *)

Lemma append_assoc (a b c : string) : (a ++ b) ++ c = a ++ (b ++ c).
Proof. induction a as [|x a IH]; simpl; [reflexivity | now rewrite IH]. Qed.

Lemma append_nil_r (a : string) : a ++ EmptyString = a.
Proof. induction a as [|x a IH]; simpl; [reflexivity | now rewrite IH]. Qed.

Lemma lines_text_app (a b : list string) :
  lines_text (a ++ b)%list = lines_text a ++ lines_text b.
Proof.
  induction a as [|x a IH]; simpl; [reflexivity|].
  rewrite IH, !append_assoc. reflexivity.
Qed.

Lemma concat_lines (l : string) (ls : list string) :
  String.concat (String "010"%char EmptyString) (l :: ls) = l ++ lines_text ls.
Proof.
  revert l. induction ls as [|x ls IH]; intros l.
  - simpl. now rewrite append_nil_r.
  - change (String.concat (String "010"%char EmptyString) (l :: x :: ls))
      with (l ++ String "010"%char EmptyString
              ++ String.concat (String "010"%char EmptyString) (x :: ls)).
    rewrite IH. simpl. reflexivity.
Qed.

(** ** The characters of the code and those of section 4.3 *)

(** ["\t" * level] is [level] tab characters. *)
Lemma tabs_indentation (level : nat) : tabs level = indentation level.
Proof.
  induction level as [|k IH]; [reflexivity|].
  cbn [tabs]. rewrite IH. reflexivity.
Qed.

Lemma quoted_append (s rest : string) :
  quoted s ++ rest = dquote ++ s ++ dquote ++ rest.
Proof. unfold quoted, dquote. simpl. now rewrite append_assoc. Qed.

Lemma lines_text_cons (l : string) (ls : list string) :
  lines_text (l :: ls) = nl ++ l ++ lines_text ls.
Proof. reflexivity. Qed.

Lemma node_lines_folder (level : nat) (title : json) (children : list node) :
  node_lines level (Folder title children)
  = (tabs level ++ "<DT><H3>" ++ py_str title ++ "</H3>")
    :: (tabs level ++ "<DL><p>")
    :: List.app (flat_map (node_lines (S level)) children)
         [tabs level ++ "</DL><p>"].
Proof. cbn [node_lines]. now rewrite tabs_indentation. Qed.

Lemma node_lines_bookmark (level : nat) (title url : json) :
  node_lines level (Bookmark title url)
  = [tabs level ++ "<DT><A HREF=" ++ dquote ++ py_str url ++ dquote
     ++ ">" ++ py_str title ++ "</A>"].
Proof. cbn [node_lines]. now rewrite tabs_indentation, quoted_append. Qed.

(** The text of section 4.3 is the header of lines 434-438, the lines of
    the nodes and the closing line of line 453. *)
Lemma serialize_text (forest : list node) :
  serialize forest
  = (html_header ++ lines_text (flat_map (node_lines 1) forest))
    ++ (nl ++ "</DL><p>").
Proof.
  unfold serialize, header_lines. cbn [app]. rewrite concat_lines.
  rewrite !lines_text_cons, !lines_text_app, lines_text_cons.
  cbn [lines_text]. unfold html_header.
  rewrite !quoted_append, !append_assoc, ?append_nil_r. reflexivity.
Qed.

(** ** The serializer *)

Lemma forest_height_cons (item : node) (d : list node) :
  forest_height (item :: d) = Nat.max (node_height item) (forest_height d).
Proof. reflexivity. Qed.

Lemma traverse_dict_lines (fuel : nat) :
  forall d acc level,
    forest_height d < fuel ->
    traverse_dict fuel d acc level
    = Ok (acc ++ lines_text (flat_map (node_lines level) d)).
Proof.
  induction fuel as [|fuel IH]; intros d acc level Hfuel; [lia|].
  cbn [traverse_dict]. revert acc.
  induction d as [|item d IHd]; intros acc.
  - simpl. now rewrite append_nil_r.
  - rewrite forest_height_cons in Hfuel.
    cbn [for_each flat_map]. rewrite lines_text_app.
    destruct item as [title children | title url]; cbn [traverse_item].
    + rewrite node_lines_folder.
      rewrite (IH children) by (cbn [node_height] in Hfuel; fold (forest_height children) in Hfuel; lia).
      cbn [bind]. rewrite IHd by lia. f_equal.
      rewrite Nat.add_1_r.
      rewrite !lines_text_cons, lines_text_app, lines_text_cons.
      cbn [lines_text]. rewrite !append_assoc, ?append_nil_r. reflexivity.
    + rewrite node_lines_bookmark.
      cbn [bind]. rewrite IHd by lia. f_equal.
      rewrite lines_text_cons. cbn [lines_text].
      rewrite !append_assoc, ?append_nil_r. reflexivity.
Qed.

(** Past the recursion limit the traversal raises. *)
Lemma traverse_dict_too_deep (fuel : nat) :
  forall d acc level,
    fuel <= forest_height d ->
    traverse_dict fuel d acc level = Error RecursionError.
Proof.
  induction fuel as [|fuel IH]; intros d acc level Hfuel; [reflexivity|].
  cbn [traverse_dict]. revert acc.
  induction d as [|item d IHd]; intros acc.
  - cbn in Hfuel. lia.
  - rewrite forest_height_cons in Hfuel. cbn [for_each].
    destruct item as [title children | title url]; cbn [traverse_item].
    + cbn [node_height] in Hfuel. fold (forest_height children) in Hfuel.
      destruct (Nat.le_gt_cases fuel (forest_height children)) as [Hdeep|Hfits].
      * now rewrite (IH children) by exact Hdeep.
      * rewrite (traverse_dict_lines fuel children) by exact Hfits.
        cbn [bind]. apply IHd. lia.
    + cbn [bind]. apply IHd. cbn [node_height] in Hfuel. lia.
Qed.

(** C4. For every forest that the recursion limit leaves room for,
    [convert_bookmarks_to_html] returns the fixed Netscape header, then the
    lines of a depth-first traversal that starts at level 1 with one tab
    per level (for a folder its [<DT><H3>] line, [<DL><p>], its children
    one level deeper and [</DL><p>]; for a bookmark its [<DT><A HREF=...>]
    line), then the closing [</DL><p>]; a title or URL that is a string is
    put in as it is, with no escaping. [serialize] spells this text out
    with the characters themselves: lines joined by line feeds, one tab
    per level, attribute values between double quotes. *)
Theorem serializer_emits_netscape_lines :
  forall (fuel : nat) (forest : list node),
    forest_height forest < fuel ->
    convert_bookmarks_to_html fuel forest = Ok (serialize forest)
    /\ (forall s, py_str (JStr s) = s).
Proof.
  intros fuel forest Hfuel. split; [|reflexivity].
  unfold convert_bookmarks_to_html.
  rewrite (traverse_dict_lines fuel forest html_header 1 Hfuel). cbn [bind].
  now rewrite serialize_text.
Qed.

(** ** The space resolver *)

Lemma title_of_dict (kvs : obj) (k : Z) :
  exists tn, title_of (JObj kvs) k = Ok tn.
Proof.
  unfold title_of, py_in, dict_has, py_getitem. simpl.
  destruct (dict_lookup "title" kvs) as [t|]; simpl; eauto.
Qed.

Lemma mark_container_in_range (title : json) (l : list json) (sn : spaces_names)
  (i : nat) :
  i + 1 < List.length l ->
  exists sn', mark_container title (JArr l) sn i = Ok sn'.
Proof.
  intros Hi. unfold mark_container, py_index.
  destruct (nth_error l i) as [c|] eqn:Hc.
  2:{ apply nth_error_None in Hc. lia. }
  destruct (nth_error l (i + 1)) as [nxt|] eqn:Hn.
  2:{ apply nth_error_None in Hn. lia. }
  simpl. destruct c; eauto.
  destruct (dict_has kvs "pinned"); simpl; eauto.
  destruct (dict_has kvs "unpinned"); simpl; eauto.
Qed.

Lemma mark_container_last (title : json) (entries : list json) (m : obj)
  (sn : spaces_names) :
  dict_has m "pinned" || dict_has m "unpinned" = true ->
  mark_container title (JArr (entries ++ [JObj m])%list) sn (List.length entries)
  = Error IndexError.
Proof.
  intros Hm. unfold mark_container, py_index.
  rewrite nth_error_app2, Nat.sub_diag by lia. simpl.
  assert (Hout : nth_error (entries ++ [JObj m])%list (List.length entries + 1) = None).
  { apply nth_error_None. rewrite length_app. simpl. lia. }
  rewrite Hout.
  destruct (dict_has m "pinned"); simpl; [reflexivity|].
  simpl in Hm. rewrite Hm. reflexivity.
Qed.

(** C7. A space whose sub-entry list ends with a pinned or unpinned marker
    makes the step of the resolver for that space raise [IndexError]
    whatever was recorded before, so [get_spaces] fails on every list that
    holds such a space, and with that error when the entries before it are
    processed without one. *)
Theorem trailing_marker_is_an_error :
  forall (pre post : list json) (kvs : obj) (entries : list json) (m : obj),
    dict_lookup "newContainerIDs" kvs = Some (JArr (entries ++ [JObj m])%list) ->
    dict_has m "pinned" || dict_has m "unpinned" = true ->
    (forall st, each_space st (JObj kvs) = Error IndexError)
    /\ exists e,
         get_spaces (JArr (pre ++ JObj kvs :: post)%list) = Error e
         /\ (forall st, for_each each_space pre get_spaces_init = Ok st ->
             e = IndexError).
Proof.
  intros pre post kvs entries m Hids Hm.
  assert (Hstep : forall st, each_space st (JObj kvs) = Error IndexError).
  { intros st. unfold each_space.
    destruct (title_of_dict kvs (n st)) as [tn Htn]. rewrite Htn. simpl.
    rewrite Hids. simpl.
    rewrite length_app. simpl length. rewrite Nat.add_1_r, seq_S, for_each_app.
    simpl "+".
    destruct (for_each_total (mark_container (fst tn) (JArr (entries ++ [JObj m])%list))
                (seq 0 (List.length entries))) with (s := names st) as [sn Hsn].
    { intros s i Hi. apply in_seq in Hi. apply mark_container_in_range.
      rewrite length_app. simpl. lia. }
    rewrite Hsn. simpl.
    rewrite (mark_container_last (fst tn) entries m sn Hm). reflexivity. }
  split; [exact Hstep|].
  unfold get_spaces. simpl. rewrite for_each_app.
  destruct (for_each each_space pre get_spaces_init) as [st|e] eqn:Hpre; simpl.
  - rewrite Hstep. simpl. exists IndexError. split; [reflexivity|]. intros; reflexivity.
  - exists e. split; [reflexivity|]. intros st Hst. discriminate Hst.
Qed.

(** An entry that is a string without [title] in it is no space, and yet
    it takes a number. *)
Lemma string_entry_advances_counter (st : spaces_loop) (s : string) :
  contains "title" s = false ->
  each_space st (JStr s)
  = Ok {| names := names st; spaces_count := spaces_count st; n := (n st + 1)%Z |}.
Proof.
  intros Hs. unfold each_space, title_of, py_in. rewrite Hs. reflexivity.
Qed.

Lemma each_space_dict (st : spaces_loop) (space : obj) (rest : list obj) :
  match effective_titles (space :: rest) (n st) with
  | title :: _ =>
      each_space st (JObj space)
      = sn <- mark_space (names st) (space, title) ;;
        Ok {| names := sn;
              spaces_count := S (spaces_count st);
              n := match dict_lookup "title" space with
                   | Some _ => n st
                   | None => (n st + 1)%Z
                   end |}
  | [] => False
  end.
Proof.
  unfold each_space, title_of, mark_space, py_in, dict_has, py_getitem.
  cbn [effective_titles].
  destruct (dict_lookup "title" space) as [t|]; cbn [bind fst snd];
    (destruct (dict_lookup "newContainerIDs" space) as [containers|];
     cbn [bind]; [|reflexivity]);
    (destruct (py_len containers) as [len|]; cbn [bind]; [|reflexivity]);
    match goal with
    | |- context [for_each ?body ?l ?s] => destruct (for_each body l s)
    end; reflexivity.
Qed.

(** On a list whose entries are all dicts, the roots are recorded under
    the titles of section 4.1: the counter starts at 1 and advances once
    per untitled space, whatever the markers of the spaces are. *)
Lemma dict_spaces_get_effective_titles (spaces : list obj) :
  forall st,
    (st' <- for_each each_space (map JObj spaces) st ;; Ok (names st'))
    = for_each mark_space (combine spaces (effective_titles spaces (n st))) (names st).
Proof.
  induction spaces as [|space rest IH]; intros st; [reflexivity|].
  pose proof (each_space_dict st space rest) as Hstep.
  cbn [map for_each]. cbn [effective_titles] in *.
  destruct (dict_lookup "title" space) as [t|]; cbn [combine for_each];
    rewrite Hstep;
    (destruct (mark_space (names st) _) as [sn|e]; cbn [bind]; [|reflexivity]);
    match goal with
    | |- context [for_each each_space _ ?st1] => exact (IH st1)
    end.
Qed.

Lemma get_spaces_of_dicts (spaces : list obj) :
  get_spaces (JArr (map JObj spaces))
  = for_each mark_space (combine spaces (effective_titles spaces 1))
      {| pinned := []; unpinned := [] |}.
Proof.
  exact (dict_spaces_get_effective_titles spaces get_spaces_init).
Qed.

(** C8 (the code departs from the claim). The list below holds one space,
    and it is untitled; the entry before it is its identifier, a string,
    as a sidebar document stores it. The string advances the counter, so
    the first untitled space is named [Space 2]; without the string it is
    named [Space 1]. *)
Theorem untitled_space_after_identifier :
  let space := JObj [("newContainerIDs", JArr [JObj [("pinned", JObj [])]; JStr "A"])] in
  get_spaces (JArr [JStr "S1"; space])
  = Ok {| pinned := [("A", JStr "Space 2")]; unpinned := [] |}
  /\ get_spaces (JArr [space])
     = Ok {| pinned := [("A", JStr "Space 1")]; unpinned := [] |}.
Proof.
  split; reflexivity.
Qed.

(** ** Locating the container *)

Lemma find_target_none (cs : list json) :
  Forall (fun c => py_in "global" c = Ok false) cs ->
  forall i, find_target cs i = Error ValueError.
Proof.
  induction 1 as [|c cs Hc _ IH]; intros i; simpl; [reflexivity|].
  rewrite Hc. simpl. apply IH.
Qed.

Lemma find_target_found (pre : list json) (g : json) (rest : list json) :
  Forall (fun c => py_in "global" c = Ok false) pre ->
  py_in "global" g = Ok true ->
  forall i, find_target (pre ++ g :: rest)%list i = Ok (i + List.length pre + 1).
Proof.
  induction 1 as [|c cs Hc _ IH]; intros Hg i; simpl.
  - rewrite Hg. simpl. f_equal. lia.
  - rewrite Hc. simpl. rewrite IH by exact Hg. f_equal. lia.
Qed.

(** C1 (as amended). When the first entry of the container list in which
    [global] occurs is [g], the spaces and items consumed are those of the
    entry that follows [g]; [IndexError] is raised when nothing follows. *)
Theorem reads_container_after_global :
  forall (fuel : nat) (json_data sidebar : json) (pre : list json) (g : json)
         (rest : list json),
    py_getitem json_data "sidebar" = Ok sidebar ->
    py_getitem sidebar "containers" = Ok (JArr (pre ++ g :: rest)%list) ->
    Forall (fun c => py_in "global" c = Ok false) pre ->
    py_in "global" g = Ok true ->
    convert_json_to_html fuel json_data
    = match rest with
      | c :: _ => convert_container fuel c
      | [] => Error IndexError
      end.
Proof.
  intros fuel json_data sidebar pre g rest Hside Hcont Hpre Hg.
  unfold convert_json_to_html. rewrite Hside. simpl. rewrite Hcont. simpl.
  rewrite (find_target_found pre g rest Hpre Hg 0). simpl.
  rewrite nth_error_app2 by lia.
  replace (List.length pre + 1 - List.length pre) with 1 by lia.
  destruct rest as [|c rest']; reflexivity.
Qed.

(** C2. When no entry of the container list contains [global], the
    conversion raises [ValueError] and [main] leaves the files as they
    were; more generally [main] writes nothing whenever the conversion
    raises. *)
Theorem no_global_container_no_output :
  forall (fuel : nat) (current_date : string) (output : option string) (fs : files)
         (json_data sidebar : json) (cs : list json),
    py_getitem json_data "sidebar" = Ok sidebar ->
    py_getitem sidebar "containers" = Ok (JArr cs) ->
    Forall (fun c => py_in "global" c = Ok false) cs ->
    convert_json_to_html fuel json_data = Error ValueError
    /\ main fuel current_date output json_data fs = (fs, Error ValueError)
    /\ (forall data e,
          convert_json_to_html fuel data = Error e ->
          main fuel current_date output data fs = (fs, Error e)).
Proof.
  intros fuel current_date output fs json_data sidebar cs Hside Hcont Hcs.
  assert (Hconv : convert_json_to_html fuel json_data = Error ValueError).
  { unfold convert_json_to_html. rewrite Hside. simpl. rewrite Hcont. simpl.
    rewrite (find_target_none cs Hcs 0). reflexivity. }
  split; [exact Hconv|]. split.
  - unfold main. rewrite Hconv. reflexivity.
  - intros data e He. unfold main. rewrite He. reflexivity.
Qed.

(** ** The identifier index *)

Lemma index_item_entry (d : index) (o : obj) :
  index_item d (JObj o)
  = match dict_lookup "id" o with
    | Some id =>
        match to_key id with
        | Some k => Ok (dict_set key_eqb k o d)
        | None => Error TypeError
        end
    | None => Error KeyError
    end.
Proof.
  unfold index_item, py_getitem. destruct (dict_lookup "id" o); reflexivity.
Qed.

Lemma index_item_indexable (d : index) (x : json) :
  indexable x = true -> exists d', index_item d x = Ok d'.
Proof.
  destruct x as [| | | | | |o]; simpl; eauto.
  destruct (dict_lookup "id" o) as [id|]; [|discriminate].
  simpl. destruct (to_key id); [eauto | discriminate].
Qed.

Lemma index_item_raises (d : index) (x : json) (e : exn) :
  index_item d x = Error e -> e = KeyError \/ e = TypeError.
Proof.
  destruct x as [| | | | | |o]; simpl; try discriminate.
  destruct (dict_lookup "id" o) as [id|]; simpl.
  - destruct (to_key id); [discriminate|]. intros H; injection H as <-. now right.
  - intros H; injection H as <-. now left.
Qed.

Lemma item_dict_raises (l : list json) :
  forall d e, for_each index_item l d = Error e -> e = KeyError \/ e = TypeError.
Proof.
  induction l as [|x l IH]; intros d e; simpl; [discriminate|].
  destruct (index_item d x) as [d'|e'] eqn:Hx; simpl.
  - apply IH.
  - intros H; injection H as <-. exact (index_item_raises d x e' Hx).
Qed.

Lemma index_item_skips (d : index) (x : json) :
  is_dict x = false -> index_item d x = Ok d.
Proof. destruct x; simpl; try reflexivity. discriminate. Qed.

Lemma dict_set_in {K V : Type} (eqb : K -> K -> bool) (k : K) (v : V)
  (d : list (K * V)) (a : K) (b : V) :
  In (a, b) (dict_set eqb k v d) -> b = v \/ In (a, b) d.
Proof.
  induction d as [|[k' v'] d IH]; simpl.
  - intros [H|[]]. injection H as _ <-. now left.
  - destruct (eqb k' k); simpl.
    + intros [H|H]; [injection H as _ <-; now left | right; now right].
    + intros [H|H]; [right; now left|].
      destruct (IH H) as [->|Hin]; [now left | right; now right].
Qed.

(** Every item of the index is a dict of the list it was built from. *)
Lemma item_dict_entries (l : list json) :
  forall d0 d, for_each index_item l d0 = Ok d ->
    forall k o, In (k, o) d -> In (k, o) d0 \/ In (JObj o) l.
Proof.
  induction l as [|x l IH]; intros d0 d; simpl.
  - intros H; injection H as <-. intros k o Hin. now left.
  - destruct (index_item d0 x) as [d1|e] eqn:Hx; simpl; [|discriminate].
    intros Hd k o Hin. destruct (IH d1 d Hd k o Hin) as [Hin1|Hl].
    2:{ right. now right. }
    destruct x as [| | | | | |ox]; simpl in Hx;
      try (injection Hx as <-; now left).
    destruct (dict_lookup "id" ox) as [id|]; simpl in Hx; [|discriminate].
    destruct (to_key id) as [kx|]; [|discriminate]. injection Hx as <-.
    destruct (dict_set_in key_eqb kx ox d0 k o Hin1) as [->|Hin0].
    + right. now left.
    + now left.
Qed.

Lemma unhashable_id_raises (l : list json) :
  forallb has_id l = true -> forallb indexable l = false ->
  forall d, for_each index_item l d = Error TypeError.
Proof.
  induction l as [|x l IH]; intros Hid Hidx d; [discriminate|].
  cbn [forallb] in Hid, Hidx. apply andb_true_iff in Hid. destruct Hid as [Hx Hl].
  cbn [for_each]. destruct (indexable x) eqn:Hix.
  - destruct (index_item_indexable d x Hix) as [d' Hd']. rewrite Hd'. cbn [bind].
    apply IH; assumption.
  - destruct x as [| | | | | |o]; try discriminate.
    rewrite index_item_entry. cbn [has_id indexable] in Hx, Hix.
    unfold dict_has in Hx.
    destruct (dict_lookup "id" o) as [id|]; [|discriminate].
    destruct (to_key id); [discriminate | reflexivity].
Qed.

(** C10 (as amended). An items list that holds a dict without the key
    [id] makes the builder fail while the index is built, with [KeyError]
    or [TypeError]: with [KeyError] when every dict before that entry has
    a hashable [id], and with [TypeError] when every dict before it has an
    [id] and one of these is unhashable. An entry that is not a dict is
    skipped: the index is the one of the list without it. *)
Theorem idless_item_fails_index :
  forall (fuel : nat) (spaces : spaces_names) (pre : list json) (o : obj)
         (post : list json),
    dict_lookup "id" o = None ->
    (exists e,
        convert_to_bookmarks fuel spaces (JArr (pre ++ JObj o :: post)%list) = Error e
        /\ (e = KeyError \/ e = TypeError)
        /\ (forallb indexable pre = true -> e = KeyError)
        /\ (forallb has_id pre = true -> forallb indexable pre = false ->
            e = TypeError))
    /\ (forall x a b, is_dict x = false ->
          item_dict (a ++ x :: b)%list = item_dict (a ++ b)%list).
Proof.
  intros fuel spaces pre o post Hid. split.
  - unfold convert_to_bookmarks, item_dict. simpl. rewrite for_each_app.
    destruct (for_each index_item pre []) as [d|e] eqn:Hpre; simpl.
    + unfold py_getitem. rewrite Hid. simpl.
      exists KeyError. repeat split; auto.
      intros Hids Hidx. rewrite (unhashable_id_raises pre Hids Hidx) in Hpre.
      discriminate Hpre.
    + exists e. repeat split.
      * exact (item_dict_raises pre [] e Hpre).
      * intros Hall.
        destruct (for_each_total index_item pre) with (s := @nil (key * obj))
          as [d Hd].
        { intros s x Hx. apply index_item_indexable.
          rewrite forallb_forall in Hall. apply Hall. exact Hx. }
        rewrite Hd in Hpre. discriminate Hpre.
      * intros Hids Hidx. rewrite (unhashable_id_raises pre Hids Hidx) in Hpre.
        now injection Hpre as <-.
  - intros x a b Hx. unfold item_dict. rewrite !for_each_app.
    destruct (for_each index_item a []) as [d|e]; simpl; [|reflexivity].
    rewrite (index_item_skips d x Hx). reflexivity.
Qed.

(** ** The tree builder *)

Lemma add_child_acc (recurse : key -> result (list node)) (parent_id : key)
  (acc : list node) (entry : key * obj) :
  add_child recurse parent_id acc entry
  = new <- add_child recurse parent_id [] entry ;; Ok (acc ++ new)%list.
Proof.
  unfold add_child. destruct entry as [item_id item].
  destruct (py_eq (dict_get item "parentID" JNull) parent_id);
    [|simpl; now rewrite app_nil_r].
  destruct (has_tab item) as [[|]|e]; cbn [bind]; try reflexivity.
  - destruct (py_or (dict_get item "title" JNull) (tab_get item "savedTitle"));
      cbn [bind]; [|reflexivity].
    destruct (tab_get item "savedURL"); reflexivity.
  - destruct (dict_has item "title"); [|cbn [bind]; now rewrite app_nil_r].
    destruct (py_getitem (JObj item) "title"); cbn [bind]; [|reflexivity].
    destruct (recurse item_id); reflexivity.
Qed.

Lemma for_each_acc {A B : Type} (body : list B -> A -> result (list B)) :
  (forall acc a, body acc a = new <- body [] a ;; Ok (acc ++ new)%list) ->
  forall l acc,
    for_each body l acc = new <- for_each body l [] ;; Ok (acc ++ new)%list.
Proof.
  intros Hbody. induction l as [|a l IH]; intros acc; simpl.
  - now rewrite app_nil_r.
  - rewrite (Hbody acc a). destruct (body [] a) as [x|e]; simpl; [|reflexivity].
    rewrite (IH (acc ++ x)%list), (IH x).
    destruct (for_each body l []) as [y|e]; simpl; [|reflexivity].
    now rewrite app_assoc.
Qed.

Lemma children_acc (recurse : key -> result (list node)) (parent_id : key)
  (l : index) (acc : list node) :
  for_each (add_child recurse parent_id) l acc
  = new <- for_each (add_child recurse parent_id) l [] ;; Ok (acc ++ new)%list.
Proof. apply for_each_acc. intros; apply add_child_acc. Qed.

Lemma add_space_acc (fuel : nat) (d : index) (l : list (string * json))
  (acc : list node) :
  for_each (add_space fuel d) l acc
  = new <- for_each (add_space fuel d) l [] ;; Ok (acc ++ new)%list.
Proof.
  apply for_each_acc. intros a sp. unfold add_space.
  destruct (recurse_into_children fuel d (KStr (fst sp))); reflexivity.
Qed.

Lemma no_child_matches (recurse : key -> result (list node)) (parent_id : key)
  (l : index) (acc : list node) :
  (forall k o, In (k, o) l -> py_eq (dict_get o "parentID" JNull) parent_id = false) ->
  for_each (add_child recurse parent_id) l acc = Ok acc.
Proof.
  revert acc. induction l as [|[k o] l IH]; intros acc Hno; simpl; [reflexivity|].
  rewrite (Hno k o (or_introl eq_refl)). simpl.
  apply IH. intros k' o' Hin. apply (Hno k' o'). now right.
Qed.

(** C6. A pinned space whose root identifier is the parent identifier of
    no item of the list contributes, at its place among the pinned
    spaces, a folder with the title of the space and no children; the
    builder fails only where it fails without that space. ([S fuel]: the
    recursion limit leaves room for one call of [recurse_into_children].) *)
Theorem rootless_pinned_space_gets_empty_folder :
  forall (fuel : nat) (pre post unp : list (string * json)) (space_id : string)
         (space_name : json) (items : list json),
    (forall o, In (JObj o) items ->
               py_eq (dict_get o "parentID" JNull) (KStr space_id) = false) ->
    convert_to_bookmarks (S fuel)
      {| pinned := (pre ++ (space_id, space_name) :: post)%list; unpinned := unp |}
      (JArr items)
    = before <- convert_to_bookmarks (S fuel) {| pinned := pre; unpinned := unp |}
                  (JArr items) ;;
      after <- convert_to_bookmarks (S fuel) {| pinned := post; unpinned := unp |}
                 (JArr items) ;;
      Ok (before ++ Folder space_name [] :: after)%list.
Proof.
  intros fuel pre post unp space_id space_name items Hno.
  unfold convert_to_bookmarks. simpl.
  destruct (item_dict items) as [d|e] eqn:Hd; simpl; [|reflexivity].
  rewrite for_each_app.
  destruct (for_each (add_space (S fuel) d) pre []) as [before|e]; simpl;
    [|reflexivity].
  unfold add_space at 1. simpl fst. simpl snd.
  assert (Hroot : recurse_into_children (S fuel) d (KStr space_id) = Ok []).
  { simpl. apply no_child_matches. intros k o Hin.
    destruct (item_dict_entries items [] d Hd k o Hin) as [[]|Hl].
    apply Hno. exact Hl. }
  rewrite Hroot. simpl. rewrite add_space_acc.
  destruct (for_each (add_space (S fuel) d) post []) as [after|e]; simpl;
    [|reflexivity].
  now rewrite <- app_assoc.
Qed.


(** ** The order of the index *)

Lemma key_eqb_eq (a b : key) : key_eqb a b = true <-> a = b.
Proof.
  destruct a, b; simpl; split; intros H; try discriminate; try reflexivity.
  - apply Z.eqb_eq in H. now subst.
  - injection H as ->. apply Z.eqb_refl.
  - apply andb_true_iff in H. destruct H as [H He].
    apply andb_true_iff in H. destruct H as [Hs Hm].
    apply Bool.eqb_prop in Hs. apply Pos.eqb_eq in Hm. apply Z.eqb_eq in He.
    now subst.
  - injection H as -> -> ->.
    now rewrite Bool.eqb_reflx, Pos.eqb_refl, Z.eqb_refl.
  - apply Bool.eqb_prop in H. now subst.
  - injection H as ->. apply Bool.eqb_reflx.
  - apply String.eqb_eq in H. now subst.
  - injection H as ->. apply String.eqb_refl.
Qed.

Lemma key_eqb_refl (a : key) : key_eqb a a = true.
Proof. now apply key_eqb_eq. Qed.

Lemma key_eqb_sym (a b : key) : key_eqb a b = key_eqb b a.
Proof.
  destruct (key_eqb a b) eqn:Hab, (key_eqb b a) eqn:Hba; try reflexivity.
  - apply key_eqb_eq in Hab. subst. now rewrite key_eqb_refl in Hba.
  - apply key_eqb_eq in Hba. subst. now rewrite key_eqb_refl in Hab.
Qed.

Lemma in_keys_In (k : key) (ks : list key) : in_keys k ks = true <-> In k ks.
Proof.
  unfold in_keys. rewrite existsb_exists. split.
  - intros [x [Hx Hk]]. apply key_eqb_eq in Hk. now subst.
  - intros Hk. exists k. split; [exact Hk | apply key_eqb_refl].
Qed.

Lemma dict_set_keys (k : key) (o : obj) (d : index) :
  map fst (dict_set key_eqb k o d)
  = if in_keys k (map fst d) then map fst d else (map fst d ++ [k])%list.
Proof.
  induction d as [|[k' o'] d IH]; simpl; [reflexivity|].
  rewrite (key_eqb_sym k k'). destruct (key_eqb k' k); simpl; [reflexivity|].
  rewrite IH. destruct (in_keys k (map fst d)); reflexivity.
Qed.

Lemma filter_new_after (seen : list key) (k : key) (ks : list key) :
  filter (fun x => negb (in_keys x (seen ++ [k])%list)) ks
  = filter (fun x => negb (in_keys x seen)) (filter (fun x => negb (key_eqb x k)) ks).
Proof.
  induction ks as [|x ks IH]; simpl; [reflexivity|].
  unfold in_keys at 1. rewrite existsb_app. simpl. rewrite orb_false_r.
  fold (in_keys x seen).
  destruct (key_eqb x k); simpl.
  - rewrite orb_true_r. simpl. exact IH.
  - rewrite orb_false_r. destruct (in_keys x seen); simpl; now rewrite IH.
Qed.

Lemma filter_seen_before (seen : list key) (k : key) (ks : list key) :
  in_keys k seen = true ->
  filter (fun x => negb (in_keys x seen)) (filter (fun x => negb (key_eqb x k)) ks)
  = filter (fun x => negb (in_keys x seen)) ks.
Proof.
  intros Hk. induction ks as [|x ks IH]; simpl; [reflexivity|].
  destruct (key_eqb x k) eqn:Hx; simpl.
  - apply key_eqb_eq in Hx. subst x. rewrite Hk. simpl. exact IH.
  - destruct (in_keys x seen); simpl; now rewrite IH.
Qed.

Lemma index_keys_from (l : list json) :
  forall d0 d, for_each index_item l d0 = Ok d ->
    map fst d
    = (map fst d0
       ++ filter (fun k => negb (in_keys k (map fst d0)))
            (first_occurrences (map fst (item_entries l))))%list.
Proof.
  induction l as [|x l IH]; intros d0 d; simpl.
  - intros H; injection H as <-. now rewrite app_nil_r.
  - destruct x as [| | | | | |o]; try (simpl; apply IH).
    rewrite index_item_entry. unfold item_key.
    destruct (dict_lookup "id" o) as [id|]; simpl; [|discriminate].
    destruct (to_key id) as [k|]; simpl; [|discriminate].
    intros Hd. rewrite (IH _ _ Hd), dict_set_keys.
    destruct (in_keys k (map fst d0)) eqn:Hk; simpl.
    + now rewrite filter_seen_before.
    + rewrite filter_new_after, <- app_assoc. reflexivity.
Qed.

Lemma filter_all (ks : list key) :
  filter (fun k => negb (in_keys k [])) ks = ks.
Proof.
  induction ks as [|k ks IH]; [reflexivity|].
  cbn [filter in_keys existsb negb]. now f_equal.
Qed.

Lemma dict_set_new (k : key) (o : obj) (d : index) :
  in_keys k (map fst d) = false -> dict_set key_eqb k o d = (d ++ [(k, o)])%list.
Proof.
  induction d as [|[k' o'] d IH]; simpl; [reflexivity|].
  rewrite (key_eqb_sym k k'). destruct (key_eqb k' k); simpl; [discriminate|].
  intros H. now rewrite IH.
Qed.

Lemma index_entries_from (l : list json) :
  forall d0 d, for_each index_item l d0 = Ok d ->
    NoDup (map fst d0 ++ map fst (item_entries l))%list ->
    d = (d0 ++ item_entries l)%list.
Proof.
  induction l as [|x l IH]; intros d0 d; simpl.
  - intros H _; injection H as <-. now rewrite app_nil_r.
  - destruct x as [| | | | | |o]; try (simpl; apply IH).
    rewrite index_item_entry. unfold item_key.
    destruct (dict_lookup "id" o) as [id|]; simpl; [|discriminate].
    destruct (to_key id) as [k|]; simpl; [|discriminate].
    intros Hd Hnd.
    assert (Hk : in_keys k (map fst d0) = false).
    { destruct (in_keys k (map fst d0)) eqn:Hin; [|reflexivity].
      apply in_keys_In in Hin. apply NoDup_remove_2 in Hnd.
      exfalso. apply Hnd. apply in_or_app. now left. }
    rewrite (dict_set_new k o d0 Hk) in Hd.
    rewrite (IH _ _ Hd).
    + now rewrite <- app_assoc.
    + rewrite map_app. simpl. rewrite <- app_assoc. exact Hnd.
Qed.

Lemma item_entries_app (l1 l2 : list json) :
  item_entries (l1 ++ l2)%list = (item_entries l1 ++ item_entries l2)%list.
Proof.
  induction l1 as [|x l1 IH]; [reflexivity|].
  destruct x as [| | | | | |o]; try exact IH.
  cbn [app item_entries]. destruct (item_key o); [|exact IH].
  rewrite IH. reflexivity.
Qed.

(** X14. The index iterates in the order in which the identifiers first
    occur in the items list. When no identifier occurs twice it is the
    list of the dict entries in source order, and the children of any
    parent are those contributed by an earlier part of the items list
    followed by those contributed by the rest of it. *)
Theorem index_iterates_in_source_order :
  forall (items : list json) (d : index),
    item_dict items = Ok d ->
    map fst d = first_occurrences (map fst (item_entries items))
    /\ (NoDup (map fst (item_entries items)) ->
        d = item_entries items
        /\ forall earlier later fuel parent_id,
             items = (earlier ++ later)%list ->
             recurse_into_children (S fuel) d parent_id
             = first <- for_each (add_child (recurse_into_children fuel d) parent_id)
                          (item_entries earlier) [] ;;
               last <- for_each (add_child (recurse_into_children fuel d) parent_id)
                         (item_entries later) [] ;;
               Ok (first ++ last)%list).
Proof.
  intros items d Hd. unfold item_dict in Hd. split.
  - rewrite (index_keys_from items [] d Hd). cbn [map app]. apply filter_all.
  - intros Hnd.
    assert (Hsrc : d = item_entries items)
      by exact (index_entries_from items [] d Hd Hnd).
    split; [exact Hsrc|].
    intros earlier later fuel parent_id Hsplit.
    cbn [recurse_into_children].
    rewrite Hsrc at 2. rewrite Hsplit, item_entries_app, for_each_app.
    destruct (for_each (add_child (recurse_into_children fuel d) parent_id)
                (item_entries earlier) []) as [first|e]; cbn [bind]; [|reflexivity].
    apply children_acc.
Qed.

(** ** Removing items that leave no node *)

Lemma add_child_ext (rec1 rec2 : key -> result (list node)) (parent_id : key)
  (acc : list node) (k : key) (o : obj) :
  rec1 k = rec2 k ->
  add_child rec1 parent_id acc (k, o) = add_child rec2 parent_id acc (k, o).
Proof. intros H. unfold add_child. now rewrite H. Qed.

Lemma add_child_dropped (recurse : key -> result (list node)) (parent_id : key)
  (acc : list node) (k : key) (o : obj) :
  is_dropped o = true -> add_child recurse parent_id acc (k, o) = Ok acc.
Proof.
  unfold is_dropped, add_child. intros H.
  destruct (py_eq (dict_get o "parentID" JNull) parent_id); [|reflexivity].
  destruct (has_tab o) as [[|]|e]; try discriminate. cbn [bind].
  destruct (dict_has o "title"); [discriminate | reflexivity].
Qed.

Lemma add_child_other_parent (recurse : key -> result (list node))
  (parent_id p : key) (acc : list node) (k : key) (o : obj) :
  parent_key o = Some p -> p <> parent_id ->
  add_child recurse parent_id acc (k, o) = Ok acc.
Proof.
  unfold parent_key, add_child, py_eq. intros -> Hp.
  destruct (key_eqb p parent_id) eqn:E.
  - apply key_eqb_eq in E. contradiction.
  - destruct p; reflexivity.
Qed.

Lemma for_each_filter {A S : Type} (body : S -> A -> result S) (keep : A -> bool)
  (l : list A) :
  (forall a, In a l -> keep a = false -> forall s, body s a = Ok s) ->
  forall s, for_each body (filter keep l) s = for_each body l s.
Proof.
  induction l as [|a l IH]; intros Hskip s; simpl; [reflexivity|].
  destruct (keep a) eqn:Ha; simpl.
  - destruct (body s a) as [s'|e]; simpl; [|reflexivity].
    apply IH. intros b Hb. apply Hskip. now right.
  - rewrite (Hskip a (or_introl eq_refl) Ha s). simpl.
    apply IH. intros b Hb. apply Hskip. now right.
Qed.

Section Removal.

Variables gone below : key -> bool.
Variable d : index.

Hypothesis below_gone : forall k, below k = true -> gone k = true.
Hypothesis gone_entries :
  forall k o, In (k, o) d -> gone k = true ->
    is_dropped o = true \/ exists p, parent_key o = Some p /\ below p = true.

Lemma gone_adds_nothing (recurse : key -> result (list node)) (parent_id : key)
  (k : key) (o : obj) :
  below parent_id = false -> In (k, o) d -> gone k = true ->
  forall acc, add_child recurse parent_id acc (k, o) = Ok acc.
Proof.
  intros Hpid Hin Hk acc.
  destruct (gone_entries k o Hin Hk) as [Hdrop | [p [Hp Hbelow]]].
  - now apply add_child_dropped.
  - apply (add_child_other_parent recurse parent_id p); [exact Hp|].
    intros ->. rewrite Hpid in Hbelow. discriminate.
Qed.

Lemma recurse_without_gone (fuel : nat) :
  forall parent_id, below parent_id = false ->
    recurse_into_children fuel (filter (kept gone) d) parent_id
    = recurse_into_children fuel d parent_id.
Proof.
  induction fuel as [|fuel IH]; intros parent_id Hpid; [reflexivity|].
  cbn [recurse_into_children].
  rewrite for_each_filter.
  - apply for_each_ext. intros acc [k o] Hin.
    destruct (gone k) eqn:Hk.
    + now rewrite !(gone_adds_nothing _ parent_id k o Hpid Hin Hk).
    + apply add_child_ext. apply IH.
      destruct (below k) eqn:Hb; [|reflexivity].
      rewrite (below_gone k Hb) in Hk. discriminate.
  - intros [k o] Hin Hkept acc. unfold kept in Hkept. simpl in Hkept.
    apply negb_false_iff in Hkept.
    now apply gone_adds_nothing.
Qed.

Lemma dict_set_filter_gone (k : key) (o : obj) (d0 : index) :
  gone k = true -> filter (kept gone) (dict_set key_eqb k o d0) = filter (kept gone) d0.
Proof.
  intros Hk. induction d0 as [|[k' o'] d0 IH]; simpl.
  - unfold kept. simpl. now rewrite Hk.
  - destruct (key_eqb k' k) eqn:E; simpl.
    + apply key_eqb_eq in E. subst k'. unfold kept. simpl. now rewrite Hk.
    + rewrite IH. reflexivity.
Qed.

Lemma dict_set_filter_kept (k : key) (o : obj) (d0 : index) :
  gone k = false ->
  filter (kept gone) (dict_set key_eqb k o d0)
  = dict_set key_eqb k o (filter (kept gone) d0).
Proof.
  intros Hk.
  assert (Hkept : forall x, kept gone (k, x) = true).
  { intros x. unfold kept. simpl. now rewrite Hk. }
  induction d0 as [|[k' o'] d0 IH].
  - simpl. now rewrite Hkept.
  - cbn [dict_set filter]. destruct (key_eqb k' k) eqn:E.
    + pose proof E as E'. apply key_eqb_eq in E'. subst k'.
      cbn [filter]. rewrite !Hkept. cbn [dict_set]. now rewrite E.
    + cbn [filter]. destruct (kept gone (k', o')); cbn [dict_set].
      * rewrite E. now rewrite IH.
      * exact IH.
Qed.

End Removal.

Lemma index_without (gone : list key) (l : list json) :
  forall d0,
    for_each index_item (without gone l)
      (filter (kept (fun k => in_keys k gone)) d0)
    = d <- for_each index_item l d0 ;;
      Ok (filter (kept (fun k => in_keys k gone)) d).
Proof.
  induction l as [|x l IH]; intros d0; [reflexivity|].
  destruct x as [| | | | | |o]; try (exact (IH d0)).
  cbn [without filter for_each]. fold (without gone l).
  rewrite index_item_entry. unfold item_key.
  destruct (dict_lookup "id" o) as [id|] eqn:Hid.
  2:{ cbn [negb for_each bind]. rewrite index_item_entry, Hid. reflexivity. }
  destruct (to_key id) as [k|] eqn:Hkey.
  2:{ cbn [negb for_each bind]. rewrite index_item_entry, Hid, Hkey. reflexivity. }
  destruct (in_keys k gone) eqn:Hk; cbn [negb for_each bind].
  - rewrite <- IH.
    now rewrite (dict_set_filter_gone (fun k => in_keys k gone) k o d0 Hk).
  - rewrite index_item_entry, Hid, Hkey. cbn [bind]. rewrite <- IH.
    now rewrite (dict_set_filter_kept (fun k => in_keys k gone) k o d0 Hk).
Qed.

Lemma dict_set_in_key (k : key) (o : obj) (d : index) (a : key) (b : obj) :
  In (a, b) (dict_set key_eqb k o d) -> (a = k /\ b = o) \/ In (a, b) d.
Proof.
  induction d as [|[k' o'] d IH]; simpl.
  - intros [H|[]]. injection H as <- <-. now left.
  - destruct (key_eqb k' k) eqn:E; simpl.
    + apply key_eqb_eq in E. subst k'.
      intros [H|H]; [injection H as <- <-; now left | right; now right].
    + intros [H|H]; [right; now left|].
      destruct (IH H) as [Hnew|Hin]; [now left | right; now right].
Qed.

Lemma item_dict_entries_key (l : list json) :
  forall d0 d, for_each index_item l d0 = Ok d ->
    forall k o, In (k, o) d ->
      In (k, o) d0 \/ (In (JObj o) l /\ item_key o = Some k).
Proof.
  induction l as [|x l IH]; intros d0 d; simpl.
  - intros H; injection H as <-. intros k o Hin. now left.
  - destruct (index_item d0 x) as [d1|e] eqn:Hx; simpl; [|discriminate].
    intros Hd k o Hin. destruct (IH d1 d Hd k o Hin) as [Hin1|[Hl Hk]].
    2:{ right. split; [now right | exact Hk]. }
    destruct x as [| | | | | |ox]; try (simpl in Hx; injection Hx as <-; now left).
    rewrite index_item_entry in Hx.
    destruct (dict_lookup "id" ox) as [id|] eqn:Hid; [|discriminate].
    destruct (to_key id) as [kx|] eqn:Hkey; [|discriminate]. injection Hx as <-.
    destruct (dict_set_in_key kx ox d0 k o Hin1) as [[-> ->]|Hin0].
    + right. split; [now left|]. unfold item_key. now rewrite Hid.
    + now left.
Qed.

(** The two items that the hypothesis of C5 leaves out. Line 409 tests
    that the key [title] is there, not its value: an item that has the
    key, be it with [null], is not dropped. Line 399 tests ["tab" in
    item["data"]], which raises on a payload that is [null]. *)
Lemma titled_item_is_not_dropped (o : obj) (title : json) :
  dict_lookup "title" o = Some title -> is_dropped o = false.
Proof.
  intros Htitle. unfold is_dropped, dict_has. rewrite Htitle.
  destruct (has_tab o) as [[|]|e]; reflexivity.
Qed.

Lemma null_payload_raises (recurse : key -> result (list node)) (parent_id : key)
  (acc : list node) (k : key) (o : obj) :
  dict_lookup "data" o = Some JNull ->
  py_eq (dict_get o "parentID" JNull) parent_id = true ->
  is_dropped o = false
  /\ add_child recurse parent_id acc (k, o) = Error TypeError.
Proof.
  intros Hdata Hparent.
  assert (Htab : has_tab o = Error TypeError).
  { unfold has_tab, dict_has, py_getitem. now rewrite Hdata. }
  split.
  - unfold is_dropped. now rewrite Htab.
  - unfold add_child. now rewrite Hparent, Htab.
Qed.

(** C5 (as amended). An item is dropped ([is_dropped]) when it has no
    [title] key and the test of line 399 is False for it: it has no [data]
    key, or a [data] in which ["tab"] does not occur. Let [gone] be a set
    of identifiers such that every item that carries one of them either
    is dropped, or has a parent identifier that is in [gone] and is not
    the root identifier of a pinned space: dropped items, and the items
    whose chains of parent identifiers lead to one without passing a
    pinned root. The builder returns for the items list what it returns
    for the list without the items of [gone], forest or exception alike:
    none of them has a node in the output and none of them makes the
    builder raise. The step of the loop of lines 397-415 for a dropped
    item leaves the children as they are and raises nothing, under every
    parent and at every depth. *)
Theorem dropped_items_leave_no_trace :
  forall (fuel : nat) (spaces : spaces_names) (items : list json) (gone : list key),
    (forall o k,
        In (JObj o) items -> item_key o = Some k -> in_keys k gone = true ->
        is_dropped o = true
        \/ exists p, parent_key o = Some p /\ in_keys p gone = true
                     /\ is_root spaces p = false) ->
    convert_to_bookmarks fuel spaces (JArr (without gone items))
    = convert_to_bookmarks fuel spaces (JArr items)
    /\ (forall recurse parent_id children k o,
          is_dropped o = true ->
          add_child recurse parent_id children (k, o) = Ok children).
Proof.
  intros fuel spaces items gone Hgone.
  split; [|intros recurse parent_id children k o; apply add_child_dropped].
  unfold convert_to_bookmarks, item_dict. cbn [py_iter bind].
  pose proof (index_without gone items []) as Hidx. cbn [filter] in Hidx.
  rewrite Hidx.
  destruct (for_each index_item items []) as [d|e] eqn:Hd; cbn [bind]; [|reflexivity].
  apply for_each_ext. intros acc [sid name] Hsp. unfold add_space. cbn [fst snd].
  rewrite (recurse_without_gone (fun k => in_keys k gone)
             (fun p => in_keys p gone && negb (is_root spaces p)) d).
  - reflexivity.
  - intros k Hk. apply andb_true_iff in Hk. exact (proj1 Hk).
  - intros k o Hin Hk.
    destruct (item_dict_entries_key items [] d Hd k o Hin) as [[]|[Hl Hkey]].
    destruct (Hgone o k Hl Hkey Hk) as [Hdrop | [p [Hp [Hpg Hroot]]]];
      [now left|].
    right. exists p. split; [exact Hp|]. now rewrite Hpg, Hroot.
  - assert (Hroot : is_root spaces (KStr sid) = true).
    { unfold is_root. apply existsb_exists. exists (sid, name).
      split; [exact Hsp | apply key_eqb_refl]. }
    rewrite Hroot. apply andb_false_r.
Qed.

(** ** More on the tree builder *)

Lemma for_each_ok_each {A S : Type} (body : S -> A -> result S) (l : list A) :
  forall s s', for_each body l s = Ok s' ->
  forall a, In a l -> exists s1 s2, body s1 a = Ok s2.
Proof.
  induction l as [|x l IH]; intros s s' Hrun a Hin; [destruct Hin|].
  cbn [for_each] in Hrun. destruct (body s x) as [s1|e] eqn:Hx; [|discriminate].
  cbn [bind] in Hrun. destruct Hin as [<-|Hin].
  - exists s, s1. exact Hx.
  - exact (IH s1 s' Hrun a Hin).
Qed.

Lemma add_spaces_shape (fuel : nat) (d : index) (l : list (string * json)) :
  forall acc forest,
    for_each (add_space fuel d) l acc = Ok forest ->
    exists new,
      forest = (acc ++ new)%list
      /\ Forall2 (fun space item =>
                    exists children,
                      recurse_into_children fuel d (KStr (fst space)) = Ok children
                      /\ item = Folder (snd space) children) l new.
Proof.
  induction l as [|sp l IH]; intros acc forest Hrun.
  - injection Hrun as <-. exists []. split; [now rewrite app_nil_r | constructor].
  - cbn [for_each] in Hrun. unfold add_space at 1 in Hrun.
    destruct (recurse_into_children fuel d (KStr (fst sp))) as [children|e] eqn:Hc;
      [|discriminate].
    cbn [bind] in Hrun. destruct (IH _ _ Hrun) as [new [-> Hnew]].
    exists (Folder (snd sp) children :: new). split.
    + now rewrite <- app_assoc.
    + constructor; [|exact Hnew]. exists children. split; [exact Hc | reflexivity].
Qed.

(** X1. The forest that [convert_to_bookmarks] returns has one top-level
    node per entry of the pinned mapping, in the order of the mapping: a
    folder with the title of the space whose children are what
    [recurse_into_children] returns for the root identifier of the
    space. *)
Theorem one_folder_per_pinned_space :
  forall (fuel : nat) (spaces : spaces_names) (items : json) (forest : list node),
    convert_to_bookmarks fuel spaces items = Ok forest ->
    exists l d,
      py_iter items = Ok l /\ item_dict l = Ok d
      /\ Forall2 (fun space item =>
                    exists children,
                      recurse_into_children fuel d (KStr (fst space)) = Ok children
                      /\ item = Folder (snd space) children)
           (pinned spaces) forest.
Proof.
  intros fuel spaces items forest Hrun. unfold convert_to_bookmarks in Hrun.
  destruct (py_iter items) as [l|e] eqn:Hl; [|discriminate]. cbn [bind] in Hrun.
  destruct (item_dict l) as [d|e] eqn:Hd; [|discriminate]. cbn [bind] in Hrun.
  exists l, d. split; [reflexivity|]. split; [exact Hd|].
  destruct (add_spaces_shape fuel d (pinned spaces) [] forest Hrun) as [new [-> Hnew]].
  exact Hnew.
Qed.

(** X2. An item with a title and no [tab] in its payload, whose parent is
    the identifier being expanded, contributes at its place among the
    children a folder with its title, whose children are those of the
    item's own identifier, expanded one call deeper. *)
Theorem titled_item_becomes_folder :
  forall (fuel : nat) (d1 d2 : index) (item_id : key) (item : obj) (title : json)
         (parent_id : key),
    has_tab item = Ok false ->
    dict_lookup "title" item = Some title ->
    py_eq (dict_get item "parentID" JNull) parent_id = true ->
    let d := (d1 ++ (item_id, item) :: d2)%list in
    recurse_into_children (S fuel) d parent_id
    = before <- for_each (add_child (recurse_into_children fuel d) parent_id) d1 [] ;;
      sub <- recurse_into_children fuel d item_id ;;
      after <- for_each (add_child (recurse_into_children fuel d) parent_id) d2 [] ;;
      Ok (before ++ Folder title sub :: after)%list.
Proof.
  intros fuel d1 d2 item_id item title parent_id Htab Htitle Hparent d.
  cbn [recurse_into_children]. unfold d at 2. rewrite for_each_app.
  destruct (for_each (add_child (recurse_into_children fuel d) parent_id) d1 [])
    as [before|e]; cbn [bind]; [|reflexivity].
  cbn [for_each]. unfold add_child at 1. rewrite Hparent, Htab. cbn [bind].
  unfold dict_has, py_getitem. rewrite Htitle. cbn [bind].
  destruct (recurse_into_children fuel d item_id) as [sub|e]; cbn [bind];
    [|reflexivity].
  rewrite children_acc.
  destruct (for_each (add_child (recurse_into_children fuel d) parent_id) d2 [])
    as [after|e]; cbn [bind]; [|reflexivity].
  now rewrite <- app_assoc.
Qed.

Lemma add_child_folder_recurses (recurse : key -> result (list node))
  (parent_id : key) (acc : list node) (k : key) (o : obj) :
  py_eq (dict_get o "parentID" JNull) parent_id = true ->
  is_folder o = true ->
  (forall r, recurse k <> Ok r) ->
  forall r, add_child recurse parent_id acc (k, o) <> Ok r.
Proof.
  intros Hparent Hfolder Hrec r. unfold add_child, is_folder in *.
  rewrite Hparent. destruct (has_tab o) as [[|]|e]; try discriminate.
  cbn [bind]. rewrite Hfolder.
  destruct (py_getitem (JObj o) "title") as [t|e]; cbn [bind]; [|discriminate].
  pose proof (Hrec) as Hnever.
  destruct (recurse k) as [sub|e]; cbn [bind]; [|discriminate].
  exfalso. exact (Hnever sub eq_refl).
Qed.

(** X3. Let [endless] be a set of identifiers each of which is the parent
    of a folder item whose own identifier is in the set again: the
    identifiers on a cycle of folders, and those from which a chain of
    folders leads into one. Expanding such an identifier returns no
    children under any recursion limit; the call raises. *)
Theorem cycle_of_folders_never_returns :
  forall (d : index) (endless : key -> Prop),
    (forall k, endless k ->
       exists k' o,
         In (k', o) d
         /\ py_eq (dict_get o "parentID" JNull) k = true
         /\ is_folder o = true
         /\ endless k') ->
    forall (fuel : nat) (k : key) (children : list node),
      endless k -> recurse_into_children fuel d k <> Ok children.
Proof.
  intros d endless Hstep fuel.
  induction fuel as [|fuel IH]; intros k children Hk; [discriminate|].
  cbn [recurse_into_children]. intros Hrun.
  destruct (Hstep k Hk) as [k' [o [Hin [Hparent [Hfolder Hk']]]]].
  destruct (for_each_ok_each _ d [] children Hrun (k', o) Hin) as [s1 [s2 Hbody]].
  apply (add_child_folder_recurses (recurse_into_children fuel d) k s1 k' o
           Hparent Hfolder (fun r => IH k' r Hk') s2).
  exact Hbody.
Qed.

(** ** The recursion limit *)

Lemma for_each_same_below_limit {A S : Type} (low high : S -> A -> result S)
  (l : list A) :
  (forall s a, In a l -> low s a <> Error RecursionError -> high s a = low s a) ->
  forall s,
    for_each low l s <> Error RecursionError ->
    for_each high l s = for_each low l s.
Proof.
  induction l as [|a l IH]; intros Hbody s Hrun; [reflexivity|].
  cbn [for_each] in *.
  assert (Ha : low s a <> Error RecursionError).
  { intros E. rewrite E in Hrun. now apply Hrun. }
  rewrite (Hbody s a (or_introl eq_refl) Ha).
  destruct (low s a) as [s'|e]; cbn [bind] in *; [|reflexivity].
  apply IH; [|exact Hrun]. intros s2 b Hb. apply Hbody. now right.
Qed.

Lemma add_child_same_below_limit (low high : key -> result (list node))
  (parent_id : key) (acc : list node) (entry : key * obj) :
  (low (fst entry) <> Error RecursionError -> high (fst entry) = low (fst entry)) ->
  add_child low parent_id acc entry <> Error RecursionError ->
  add_child high parent_id acc entry = add_child low parent_id acc entry.
Proof.
  destruct entry as [k o]. cbn [fst]. unfold add_child. intros Hrec.
  destruct (py_eq (dict_get o "parentID" JNull) parent_id); [|reflexivity].
  destruct (has_tab o) as [[|]|e]; cbn [bind]; try reflexivity.
  destruct (dict_has o "title"); [|reflexivity].
  destruct (py_getitem (JObj o) "title") as [t|e]; cbn [bind]; [|reflexivity].
  intros Hrun. rewrite Hrec; [reflexivity|].
  intros E. rewrite E in Hrun. now apply Hrun.
Qed.

Lemma recurse_same_below_limit (d : index) (fuel : nat) :
  forall parent_id,
    recurse_into_children fuel d parent_id <> Error RecursionError ->
    recurse_into_children (S fuel) d parent_id
    = recurse_into_children fuel d parent_id.
Proof.
  induction fuel as [|fuel IH]; intros parent_id Hrun.
  - exfalso. now apply Hrun.
  - change (recurse_into_children (S (S fuel)) d parent_id)
      with (for_each (add_child (recurse_into_children (S fuel) d) parent_id) d []).
    change (recurse_into_children (S fuel) d parent_id)
      with (for_each (add_child (recurse_into_children fuel d) parent_id) d [])
      in Hrun |- *.
    apply for_each_same_below_limit; [|exact Hrun].
    intros acc entry _. apply add_child_same_below_limit. apply IH.
Qed.

Lemma serialize_below_limit (fuel : nat) (forest : list node) :
  forest_height forest < fuel ->
  convert_bookmarks_to_html fuel forest = Ok (serialize forest).
Proof.
  intros Hfits. unfold convert_bookmarks_to_html.
  rewrite (traverse_dict_lines fuel forest html_header 1 Hfits). cbn [bind].
  now rewrite serialize_text.
Qed.

Lemma serializer_cases (fuel : nat) (forest : list node) :
  convert_bookmarks_to_html fuel forest
  = if (forest_height forest <? fuel)%nat then Ok (serialize forest)
    else Error RecursionError.
Proof.
  destruct (forest_height forest <? fuel)%nat eqn:Hfits.
  - apply Nat.ltb_lt in Hfits. now apply serialize_below_limit.
  - apply Nat.ltb_ge in Hfits. unfold convert_bookmarks_to_html.
    now rewrite (traverse_dict_too_deep fuel forest html_header 1 Hfits).
Qed.

(** X4. The serializer raises nothing but [RecursionError], and raises it
    exactly when the forest nests folders as deep as the recursion limit
    or deeper; otherwise it returns the text of section 4.3. *)
Theorem serializer_fails_only_past_the_limit :
  forall (fuel : nat) (forest : list node),
    (forest_height forest < fuel
     /\ convert_bookmarks_to_html fuel forest = Ok (serialize forest))
    \/ (fuel <= forest_height forest
        /\ convert_bookmarks_to_html fuel forest = Error RecursionError).
Proof.
  intros fuel forest. rewrite serializer_cases.
  destruct (forest_height forest <? fuel)%nat eqn:Hfits.
  - left. apply Nat.ltb_lt in Hfits. now split.
  - right. apply Nat.ltb_ge in Hfits. now split.
Qed.

Lemma forest_height_app (a b : list node) :
  forest_height (a ++ b)%list = Nat.max (forest_height a) (forest_height b).
Proof.
  unfold forest_height. rewrite map_app. apply list_max_app.
Qed.

Lemma forest_height_folder (title : json) (sub : list node) :
  forest_height [Folder title sub] = S (forest_height sub).
Proof. reflexivity. Qed.

Lemma forest_height_bookmark (title url : json) :
  forest_height [Bookmark title url] = 0.
Proof. reflexivity. Qed.

Lemma add_child_height (recurse : key -> result (list node)) (bound : nat)
  (parent_id : key) (entry : key * obj) :
  (forall k sub, recurse k = Ok sub -> forest_height sub < bound) ->
  forall acc acc',
    add_child recurse parent_id acc entry = Ok acc' ->
    forest_height acc <= bound -> forest_height acc' <= bound.
Proof.
  intros Hrec acc acc'. destruct entry as [k o]. unfold add_child.
  destruct (py_eq (dict_get o "parentID" JNull) parent_id).
  2:{ intros H; injection H as <-. auto. }
  destruct (has_tab o) as [[|]|e]; cbn [bind]; try discriminate.
  - destruct (py_or (dict_get o "title" JNull) (tab_get o "savedTitle")) as [t|e];
      cbn [bind]; [|discriminate].
    destruct (tab_get o "savedURL") as [u|e]; cbn [bind]; [|discriminate].
    intros H Hacc; injection H as <-.
    rewrite forest_height_app, forest_height_bookmark. lia.
  - destruct (dict_has o "title").
    2:{ intros H; injection H as <-. auto. }
    destruct (py_getitem (JObj o) "title") as [t|e]; cbn [bind]; [|discriminate].
    destruct (recurse k) as [sub|e] eqn:Hsub; cbn [bind]; [|discriminate].
    intros H Hacc; injection H as <-.
    rewrite forest_height_app, forest_height_folder.
    pose proof (Hrec k sub Hsub) as Hlt. lia.
Qed.

Lemma for_each_invariant {A S : Type} (body : S -> A -> result S) (P : S -> Prop)
  (l : list A) :
  (forall s a s', In a l -> body s a = Ok s' -> P s -> P s') ->
  forall s s', for_each body l s = Ok s' -> P s -> P s'.
Proof.
  induction l as [|a l IH]; intros Hbody s s' Hrun Hs.
  - injection Hrun as <-. exact Hs.
  - cbn [for_each] in Hrun. destruct (body s a) as [s1|e] eqn:Ha; [|discriminate].
    cbn [bind] in Hrun.
    apply (IH (fun s2 b s3 Hb => Hbody s2 b s3 (or_intror Hb)) s1 s' Hrun).
    exact (Hbody s a s1 (or_introl eq_refl) Ha Hs).
Qed.

Lemma recurse_height (d : index) (fuel : nat) :
  forall parent_id children,
    recurse_into_children fuel d parent_id = Ok children ->
    forest_height children < fuel.
Proof.
  induction fuel as [|fuel IH]; intros parent_id children Hrun; [discriminate|].
  cbn [recurse_into_children] in Hrun.
  assert (forest_height children <= fuel); [|lia].
  apply (for_each_invariant _ (fun acc => forest_height acc <= fuel) d
           (fun acc entry acc' _ Hstep =>
              add_child_height (recurse_into_children fuel d) fuel parent_id entry
                (fun k sub => IH k sub) acc acc' Hstep)
           [] children Hrun).
  cbn. lia.
Qed.

(** X5. A forest that the builder returns under a recursion limit nests
    folders no deeper than the limit, so that the serializer, which goes
    one call deeper than the builder, returns its text whenever there is
    room for one call more. *)
Theorem built_forest_fits_one_call_more :
  forall (fuel : nat) (spaces : spaces_names) (items : json) (forest : list node),
    convert_to_bookmarks fuel spaces items = Ok forest ->
    forest_height forest <= fuel
    /\ convert_bookmarks_to_html (S fuel) forest = Ok (serialize forest).
Proof.
  intros fuel spaces items forest Hrun.
  assert (Hheight : forest_height forest <= fuel).
  { unfold convert_to_bookmarks in Hrun.
    destruct (py_iter items) as [l|e]; [|discriminate]. cbn [bind] in Hrun.
    destruct (item_dict l) as [d|e]; [|discriminate]. cbn [bind] in Hrun.
    apply (for_each_invariant (add_space fuel d)
             (fun acc => forest_height acc <= fuel)
             (pinned spaces)) with (s := @nil node) (s' := forest);
      [|exact Hrun | cbn; lia].
    intros acc sp acc' _ Hstep Hacc. unfold add_space in Hstep.
    destruct (recurse_into_children fuel d (KStr (fst sp))) as [children|e] eqn:Hc;
      [|discriminate].
    cbn [bind] in Hstep. injection Hstep as <-.
    rewrite forest_height_app, forest_height_folder.
    pose proof (recurse_height d fuel _ _ Hc) as Hlt. lia. }
  split; [exact Hheight|]. apply serialize_below_limit. lia.
Qed.

Lemma add_space_same_below_limit (d : index) (fuel : nat) (acc : list node)
  (sp : string * json) :
  add_space fuel d acc sp <> Error RecursionError ->
  add_space (S fuel) d acc sp = add_space fuel d acc sp.
Proof.
  unfold add_space. intros Hrun. rewrite recurse_same_below_limit; [reflexivity|].
  intros E. rewrite E in Hrun. now apply Hrun.
Qed.

Lemma convert_container_same_below_limit (fuel : nat) (c : json) :
  convert_container fuel c <> Error RecursionError ->
  convert_container (S fuel) c = convert_container fuel c.
Proof.
  unfold convert_container.
  destruct (py_getitem c "spaces") as [raw|e]; cbn [bind]; [|reflexivity].
  destruct (get_spaces raw) as [spaces|e]; cbn [bind]; [|reflexivity].
  destruct (py_getitem c "items") as [items|e]; cbn [bind]; [|reflexivity].
  unfold convert_to_bookmarks.
  destruct (py_iter items) as [l|e]; cbn [bind]; [|reflexivity].
  destruct (item_dict l) as [d|e]; cbn [bind]; [|reflexivity].
  intros Hrun.
  assert (Hbuild : for_each (add_space fuel d) (pinned spaces) []
                   <> Error RecursionError).
  { intros E. rewrite E in Hrun. now apply Hrun. }
  rewrite (for_each_same_below_limit (add_space fuel d) (add_space (S fuel) d)
             (pinned spaces)
             (fun acc sp _ => add_space_same_below_limit d fuel acc sp) [] Hbuild).
  destruct (for_each (add_space fuel d) (pinned spaces) []) as [forest|e];
    cbn [bind] in *; [|reflexivity].
  rewrite !serializer_cases in *.
  destruct (forest_height forest <? fuel)%nat eqn:Hfits.
  - apply Nat.ltb_lt in Hfits.
    assert (Hmore : (forest_height forest <? S fuel)%nat = true) by (apply Nat.ltb_lt; lia).
    now rewrite Hmore.
  - exfalso. now apply Hrun.
Qed.

(** X6. A conversion that did not end in [RecursionError] ends in the same
    way, with the same text or the same exception, under every larger
    recursion limit. *)
Theorem larger_limit_same_outcome :
  forall (fuel more : nat) (json_data : json),
    convert_json_to_html fuel json_data <> Error RecursionError ->
    convert_json_to_html (fuel + more) json_data
    = convert_json_to_html fuel json_data.
Proof.
  intros fuel more json_data Hrun.
  induction more as [|more IH].
  - now rewrite Nat.add_0_r.
  - rewrite Nat.add_succ_r, <- IH.
    unfold convert_json_to_html in *.
    destruct (py_getitem json_data "sidebar") as [sidebar|e]; cbn [bind] in *;
      [|reflexivity].
    destruct (py_getitem sidebar "containers") as [containers|e]; cbn [bind] in *;
      [|reflexivity].
    destruct (py_iter containers) as [cs|e]; cbn [bind] in *; [|reflexivity].
    destruct (find_target cs 0) as [target|e]; cbn [bind] in *; [|reflexivity].
    destruct (py_index containers target) as [c|e]; cbn [bind] in *; [|reflexivity].
    apply convert_container_same_below_limit. rewrite IH. exact Hrun.
Qed.

(** ** Duplicate identifiers *)

Lemma index_lookup_dict_set (k k' : key) (o : obj) (d : index) :
  index_lookup k (dict_set key_eqb k' o d)
  = if key_eqb k' k then Some o else index_lookup k d.
Proof.
  unfold index_lookup. induction d as [|[k1 o1] d IH]; cbn [dict_set find fst snd].
  - destruct (key_eqb k' k); reflexivity.
  - destruct (key_eqb k1 k') eqn:E1; cbn [find fst snd].
    + apply key_eqb_eq in E1. subst k1. destruct (key_eqb k' k); reflexivity.
    + destruct (key_eqb k1 k) eqn:E2; [|exact IH].
      apply key_eqb_eq in E2. subst k1. rewrite key_eqb_sym, E1. reflexivity.
Qed.

Lemma dict_set_keys_nodup (k : key) (o : obj) (d : index) :
  NoDup (map fst d) -> NoDup (map fst (dict_set key_eqb k o d)).
Proof.
  intros Hd. rewrite dict_set_keys.
  destruct (in_keys k (map fst d)) eqn:Hk; [exact Hd|].
  apply NoDup_rev in Hd. rewrite <- (rev_involutive (map fst d ++ [k])%list).
  apply NoDup_rev. rewrite rev_app_distr. cbn [rev app].
  constructor; [|exact Hd].
  intros Hin. apply in_rev in Hin. apply in_keys_In in Hin.
  rewrite Hin in Hk. discriminate.
Qed.

Lemma index_keeps_last_from (l : list json) :
  forall d0 d,
    for_each index_item l d0 = Ok d ->
    NoDup (map fst d0) ->
    NoDup (map fst d)
    /\ forall k,
         index_lookup k d
         = match last_entry k (item_entries l) with
           | Some o => Some o
           | None => index_lookup k d0
           end.
Proof.
  induction l as [|x l IH]; intros d0 d Hrun Hd0.
  - injection Hrun as <-. split; [exact Hd0 | reflexivity].
  - destruct x as [| | | | | |o]; try exact (IH d0 d Hrun Hd0).
    cbn [for_each] in Hrun. rewrite index_item_entry in Hrun.
    cbn [item_entries]. unfold item_key.
    destruct (dict_lookup "id" o) as [id|]; [|discriminate].
    destruct (to_key id) as [k0|]; [|discriminate]. cbn [bind] in Hrun.
    destruct (IH _ _ Hrun (dict_set_keys_nodup k0 o d0 Hd0)) as [Hnd Hlook].
    split; [exact Hnd|]. intros k. rewrite Hlook. cbn [last_entry].
    destruct (last_entry k (item_entries l)); [reflexivity|].
    rewrite index_lookup_dict_set. destruct (key_eqb k0 k); reflexivity.
Qed.

(** X7. The keys of the index are pairwise distinct, and under each
    identifier the index holds the last dict of the items list that
    carries it: of two items with one identifier the later one is
    converted and the earlier one is not. *)
Theorem index_keeps_last_duplicate :
  forall (items : list json) (d : index),
    item_dict items = Ok d ->
    NoDup (map fst d)
    /\ forall k, index_lookup k d = last_entry k (item_entries items).
Proof.
  intros items d Hrun.
  destruct (index_keeps_last_from items [] d Hrun (NoDup_nil key)) as [Hnd Hlook].
  split; [exact Hnd|]. intros k. rewrite Hlook.
  destruct (last_entry k (item_entries items)); reflexivity.
Qed.

(** ** Items under an identifier that no folder carries *)

Lemma add_child_not_folder (rec1 rec2 : key -> result (list node)) (parent_id : key)
  (acc : list node) (k : key) (o : obj) :
  is_folder o = false ->
  add_child rec1 parent_id acc (k, o) = add_child rec2 parent_id acc (k, o).
Proof.
  unfold is_folder, add_child. intros Hleaf.
  destruct (py_eq (dict_get o "parentID" JNull) parent_id); [|reflexivity].
  destruct (has_tab o) as [[|]|e]; cbn [bind]; try reflexivity.
  rewrite Hleaf. reflexivity.
Qed.

Section Pruning.

Variable pruned : key * obj -> bool.
Variable below : key -> bool.
Variable d : index.

Hypothesis pruned_unreached :
  forall k o, In (k, o) d -> pruned (k, o) = true ->
    is_dropped o = true \/ exists p, parent_key o = Some p /\ below p = true.
Hypothesis below_not_expanded :
  forall k o, In (k, o) d -> pruned (k, o) = false -> below k = true ->
    is_folder o = false.

Lemma pruned_adds_nothing (recurse : key -> result (list node)) (parent_id : key)
  (k : key) (o : obj) :
  below parent_id = false -> In (k, o) d -> pruned (k, o) = true ->
  forall acc, add_child recurse parent_id acc (k, o) = Ok acc.
Proof.
  intros Hpid Hin Hk acc.
  destruct (pruned_unreached k o Hin Hk) as [Hdrop | [p [Hp Hbelow]]].
  - now apply add_child_dropped.
  - apply (add_child_other_parent recurse parent_id p); [exact Hp|].
    intros ->. rewrite Hpid in Hbelow. discriminate.
Qed.

Lemma recurse_pruned (fuel : nat) :
  forall parent_id, below parent_id = false ->
    recurse_into_children fuel (filter (fun e => negb (pruned e)) d) parent_id
    = recurse_into_children fuel d parent_id.
Proof.
  induction fuel as [|fuel IH]; intros parent_id Hpid; [reflexivity|].
  cbn [recurse_into_children].
  rewrite for_each_filter.
  - apply for_each_ext. intros acc [k o] Hin.
    destruct (pruned (k, o)) eqn:Hk.
    + now rewrite !(pruned_adds_nothing _ parent_id k o Hpid Hin Hk).
    + destruct (below k) eqn:Hb.
      * apply add_child_not_folder. exact (below_not_expanded k o Hin Hk Hb).
      * apply add_child_ext. apply IH. exact Hb.
  - intros [k o] Hin Hkept acc. apply negb_false_iff in Hkept.
    now apply pruned_adds_nothing.
Qed.

End Pruning.

(** X8. When the identifier [orphanage] is carried by no item that becomes
    a folder (by no item at all, by a saved tab, or by an item with
    neither tab nor title), the items whose parent is [orphanage] add
    nothing to the children of any other identifier, at any depth: the
    children are those computed from the index without these items. *)
Theorem children_of_non_folders_are_not_exported :
  forall (fuel : nat) (d : index) (orphanage parent_id : key),
    (forall o, In (orphanage, o) d -> is_folder o = false) ->
    parent_id <> orphanage ->
    recurse_into_children fuel
      (filter (fun e => negb (py_eq (dict_get (snd e) "parentID" JNull) orphanage)) d)
      parent_id
    = recurse_into_children fuel d parent_id.
Proof.
  intros fuel d orphanage parent_id Hleaf Hpid.
  apply (recurse_pruned
           (fun e => py_eq (dict_get (snd e) "parentID" JNull) orphanage)
           (fun k => key_eqb k orphanage) d).
  - intros k o _ Hgone. right. cbn [snd] in Hgone. unfold py_eq in Hgone.
    unfold parent_key.
    destruct (to_key (dict_get o "parentID" JNull)) as [p|]; [|discriminate].
    exists p. split; [reflexivity|]. destruct p; try exact Hgone; discriminate.
  - intros k o Hin _ Hk. apply key_eqb_eq in Hk. subst k. exact (Hleaf o Hin).
  - destruct (key_eqb parent_id orphanage) eqn:E; [|reflexivity].
    apply key_eqb_eq in E. contradiction.
Qed.

(** ** More on the space resolver *)

Lemma markers_followed_next (l : list json) :
  markers_followed l = true ->
  forall i c, nth_error l i = Some c -> is_marker c = true ->
    exists nxt, nth_error l (i + 1) = Some nxt.
Proof.
  induction l as [|x l IH]; intros Hl i c Hi Hc; [destruct i; discriminate|].
  cbn [markers_followed] in Hl. apply andb_true_iff in Hl. destruct Hl as [Hx Hrest].
  destruct i as [|i].
  - injection Hi as ->. rewrite Hc in Hx. cbn in Hx.
    destruct l as [|y l]; [discriminate|]. exists y. reflexivity.
  - exact (IH Hrest i c Hi Hc).
Qed.

Lemma mark_container_wellformed (title : json) (l : list json) (sn : spaces_names)
  (i : nat) :
  markers_followed l = true -> i < List.length l ->
  exists sn', mark_container title (JArr l) sn i = Ok sn'.
Proof.
  intros Hl Hi. unfold mark_container, py_index.
  destruct (nth_error l i) as [c|] eqn:Hc.
  2:{ apply nth_error_None in Hc. lia. }
  cbn [bind]. destruct c as [| | | | | |m]; eauto.
  destruct (dict_has m "pinned") eqn:Hp.
  - destruct (markers_followed_next l Hl i (JObj m) Hc) as [nxt Hn].
    { cbn. now rewrite Hp. }
    rewrite Hn. cbn [bind]. eauto.
  - destruct (dict_has m "unpinned") eqn:Hu; [|eauto].
    destruct (markers_followed_next l Hl i (JObj m) Hc) as [nxt Hn].
    { cbn. now rewrite Hp, Hu. }
    rewrite Hn. cbn [bind]. eauto.
Qed.

Lemma each_space_wellformed (st : spaces_loop) (v : json) :
  wellformed_space v = true -> exists st', each_space st v = Ok st'.
Proof.
  destruct v as [| | | |s| |space]; try discriminate; cbn [wellformed_space].
  - intros Hs. apply negb_true_iff in Hs.
    rewrite (string_entry_advances_counter st s Hs). eauto.
  - destruct (dict_lookup "newContainerIDs" space) as [ids|] eqn:Hids; [|discriminate].
    destruct ids as [| | | | |l|]; try discriminate. intros Hl.
    unfold each_space.
    destruct (title_of_dict space (n st)) as [tn Htn]. rewrite Htn. cbn [bind].
    unfold py_getitem. rewrite Hids. cbn [bind py_len py_iter].
    destruct (for_each_total (mark_container (fst tn) (JArr l))
                (seq 0 (List.length l))) with (s := names st) as [sn Hsn].
    { intros s i Hi. apply in_seq in Hi. apply mark_container_wellformed; [exact Hl | lia]. }
    rewrite Hsn. cbn [bind]. eauto.
Qed.

(** X9. [get_spaces] returns the two mappings, and raises nothing, on
    every list whose entries are identifier strings without [title] in
    them and dicts whose [newContainerIDs] is a list in which each pinned
    or unpinned marker is followed by an entry. *)
Theorem wellformed_spaces_are_resolved :
  forall l : list json,
    forallb wellformed_space l = true ->
    exists mapping, get_spaces (JArr l) = Ok mapping.
Proof.
  intros l Hl. unfold get_spaces. cbn [py_iter bind].
  destruct (for_each_total each_space l) with (s := get_spaces_init) as [st Hst].
  { intros s v Hv. apply each_space_wellformed.
    rewrite forallb_forall in Hl. exact (Hl v Hv). }
  rewrite Hst. cbn [bind]. eauto.
Qed.

Lemma dict_lookup_dict_set (k k' : string) (v : json) (d : list (string * json)) :
  dict_lookup k (dict_set String.eqb k' v d)
  = if String.eqb k' k then Some v else dict_lookup k d.
Proof.
  induction d as [|[k1 v1] d IH]; cbn [dict_set dict_lookup].
  - destruct (String.eqb k' k); reflexivity.
  - destruct (String.eqb k1 k') eqn:E1; cbn [dict_lookup].
    + apply String.eqb_eq in E1. subst k1. destruct (String.eqb k' k); reflexivity.
    + destruct (String.eqb k1 k) eqn:E2; [|exact IH].
      apply String.eqb_eq in E2. subst k1. rewrite String.eqb_sym, E1. reflexivity.
Qed.

Lemma mark_container_keeps (title containers : json) (key : string)
  (sn sn' : spaces_names) (i : nat) :
  mark_container title containers sn i = Ok sn' ->
  dict_lookup key (pinned sn) = Some title ->
  dict_lookup key (pinned sn') = Some title.
Proof.
  unfold mark_container.
  destruct (py_index containers i) as [c|e]; [|discriminate]. cbn [bind].
  destruct c as [| | | | | |m]; try (intros H; injection H as <-; auto).
  destruct (dict_has m "pinned").
  - destruct (py_index containers (i + 1)) as [nxt|e]; [|discriminate]. cbn [bind].
    intros H Hkey; injection H as <-. cbn [set_pinned pinned].
    rewrite dict_lookup_dict_set. destruct (String.eqb (py_str nxt) key); auto.
  - destruct (dict_has m "unpinned"); [|intros H; injection H as <-; auto].
    destruct (py_index containers (i + 1)) as [nxt|e]; [|discriminate]. cbn [bind].
    intros H Hkey; injection H as <-. exact Hkey.
Qed.

Lemma mark_containers_record (title : json) (l : list json) (m : obj) (v : json)
  (i : nat) (sn sn' : spaces_names) :
  nth_error l i = Some (JObj m) -> dict_has m "pinned" = true ->
  nth_error l (i + 1) = Some v ->
  for_each (mark_container title (JArr l)) (seq 0 (List.length l)) sn = Ok sn' ->
  dict_lookup (py_str v) (pinned sn') = Some title.
Proof.
  intros Hi Hp Hv Hrun.
  assert (Hlen : i < List.length l) by (apply nth_error_Some; congruence).
  replace (List.length l) with (i + S (List.length l - S i)) in Hrun by lia.
  rewrite seq_app, for_each_app in Hrun. cbn [seq for_each "+"] in Hrun.
  destruct (for_each (mark_container title (JArr l)) (seq 0 i) sn) as [sn1|e];
    [|discriminate].
  cbn [bind] in Hrun.
  assert (Hstep : mark_container title (JArr l) sn1 i
                  = Ok (set_pinned (py_str v) title sn1)).
  { unfold mark_container, py_index. rewrite Hi. cbn [bind]. rewrite Hp, Hv.
    reflexivity. }
  rewrite Hstep in Hrun. cbn [bind] in Hrun.
  apply (for_each_invariant (mark_container title (JArr l))
           (fun s => dict_lookup (py_str v) (pinned s) = Some title)
           (seq (S i) (List.length l - S i))
           (fun s j s' _ Hj => mark_container_keeps title (JArr l) (py_str v) s s' j Hj)
           _ sn' Hrun).
  cbn [set_pinned pinned]. rewrite dict_lookup_dict_set.
  now rewrite String.eqb_refl.
Qed.

(** X10. Later writes win: whatever the spaces before it recorded, the
    identifier that follows a pinned marker of the last space of the list
    is mapped, in the pinned mapping returned, to the title of that last
    space (its explicit title, else [Space N] with the counter reached
    after the entries before it). *)
Theorem last_space_names_its_roots :
  forall (pre : list json) (space : obj) (st : spaces_loop) (l : list json)
         (i : nat) (m : obj) (v : json) (mapping : spaces_names),
    for_each each_space pre get_spaces_init = Ok st ->
    dict_lookup "newContainerIDs" space = Some (JArr l) ->
    nth_error l i = Some (JObj m) ->
    dict_has m "pinned" = true ->
    nth_error l (i + 1) = Some v ->
    get_spaces (JArr (pre ++ [JObj space])%list) = Ok mapping ->
    dict_lookup (py_str v) (pinned mapping)
    = Some match dict_lookup "title" space with
           | Some title => title
           | None => JStr ("Space " ++ str_of_Z (n st))
           end.
Proof.
  intros pre space st l i m v mapping Hpre Hids Hi Hp Hv Hrun.
  unfold get_spaces in Hrun. cbn [py_iter bind] in Hrun.
  rewrite for_each_app, Hpre in Hrun. cbn [bind for_each] in Hrun.
  unfold each_space, title_of, py_in, py_getitem, dict_has in Hrun.
  cbn [bind] in Hrun. rewrite Hids in Hrun.
  destruct (dict_lookup "title" space) as [title|]; cbn [bind fst snd py_len py_iter] in Hrun.
  - destruct (for_each (mark_container title (JArr l)) (seq 0 (List.length l)) (names st))
      as [sn|e] eqn:Hmark; [|discriminate].
    cbn [bind] in Hrun. injection Hrun as <-.
    exact (mark_containers_record title l m v i _ sn Hi Hp Hv Hmark).
  - destruct (for_each (mark_container (JStr ("Space " ++ str_of_Z (n st))) (JArr l))
                (seq 0 (List.length l)) (names st)) as [sn|e] eqn:Hmark;
      [|discriminate].
    cbn [bind] in Hrun. injection Hrun as <-.
    exact (mark_containers_record _ l m v i _ sn Hi Hp Hv Hmark).
Qed.

(** ** Indentation *)

Lemma node_forall_ind (P : node -> Prop) :
  (forall title children, Forall P children -> P (Folder title children)) ->
  (forall title url, P (Bookmark title url)) ->
  forall item, P item.
Proof.
  intros HF HB. fix IH 1. intros [title children | title url].
  - apply HF. induction children as [|c cs IHcs]; constructor.
    + apply IH.
    + exact IHcs.
  - apply HB.
Qed.

Lemma height_of_member (item : node) (d : list node) :
  In item d -> node_height item <= forest_height d.
Proof.
  intros Hin. unfold forest_height.
  pose proof (proj1 (list_max_le (map node_height d) (list_max (map node_height d)))
                (Nat.le_refl _)) as Hall.
  rewrite Forall_forall in Hall. apply Hall. now apply in_map.
Qed.

Lemma node_lines_indented (item : node) :
  forall level,
    Forall (fun line =>
              exists k rest,
                level <= k <= level + node_height item
                /\ line = indentation k ++ "<" ++ rest)
      (node_lines level item).
Proof.
  induction item as [title children IH | title url] using node_forall_ind;
    intros level; cbn [node_lines node_height].
  - constructor.
    { exists level, ("DT><H3>" ++ py_str title ++ "</H3>"). split; [lia | reflexivity]. }
    constructor.
    { exists level, "DL><p>". split; [lia | reflexivity]. }
    apply Forall_app. split.
    + apply Forall_flat_map. rewrite Forall_forall in IH |- *.
      intros child Hchild. specialize (IH child Hchild (S level)).
      rewrite Forall_forall in IH |- *. intros line Hline.
      destruct (IH line Hline) as [k [rest [Hk ->]]].
      exists k, rest. split; [|reflexivity].
      pose proof (height_of_member child children Hchild) as Hle.
      unfold forest_height in Hle. lia.
    + constructor; [|constructor].
      exists level, "/DL><p>". split; [lia | reflexivity].
  - constructor; [|constructor].
    exists level, ("DT><A HREF=" ++ quoted (py_str url)
                   ++ ">" ++ py_str title ++ "</A>").
    split; [lia | reflexivity].
Qed.

(** X11. A call of [traverse_dict] at nesting level [level] appends the
    lines of its nodes, and each of these lines is made of [k] tab
    characters followed by the opening of a tag, where [k] is at least
    [level] and at most [level] plus the depth to which the list nests
    folders. *)
Theorem traversal_indents_by_level :
  forall (fuel : nat) (d : list node) (html_str : string) (level : nat),
    forest_height d < fuel ->
    traverse_dict fuel d html_str level
    = Ok (html_str ++ lines_text (flat_map (node_lines level) d))
    /\ Forall (fun line =>
                 exists k rest,
                   level <= k <= level + forest_height d
                   /\ line = indentation k ++ "<" ++ rest)
         (flat_map (node_lines level) d).
Proof.
  intros fuel d html_str level Hfits. split.
  - now apply traverse_dict_lines.
  - apply Forall_flat_map. apply Forall_forall. intros item Hitem.
    pose proof (node_lines_indented item level) as Hlines.
    rewrite Forall_forall in Hlines |- *. intros line Hline.
    destruct (Hlines line Hline) as [k [rest [Hk ->]]].
    exists k, rest. split; [|reflexivity].
    pose proof (height_of_member item d Hitem). lia.
Qed.

(** ** The counter of untitled spaces *)

Lemma each_space_counts (st st' : spaces_loop) (v : json) :
  each_space st v = Ok st' ->
  n st' = (n st + (if has_title v then 0 else 1))%Z
  /\ spaces_count st' = spaces_count st + (if is_dict v then 1 else 0).
Proof.
  unfold each_space, title_of.
  destruct v as [| b | z | f | s | l | m]; cbn [py_in bind]; try discriminate.
  - destruct (contains "title" s); cbn [bind py_getitem]; [discriminate|].
    intros H; injection H as <-. cbn. split; [reflexivity | lia].
  - destruct (existsb (is_str "title") l); cbn [bind py_getitem]; [discriminate|].
    intros H; injection H as <-. cbn. split; [reflexivity | lia].
  - cbn [has_title is_dict].
    destruct (dict_has m "title"); cbn [bind].
    + destruct (py_getitem (JObj m) "title") as [t|e]; cbn [bind fst snd];
        [|discriminate].
      destruct (py_getitem (JObj m) "newContainerIDs") as [c|e]; cbn [bind];
        [|discriminate].
      destruct (py_len c) as [len|e]; cbn [bind]; [|discriminate].
      destruct (for_each _ _ _) as [sn|e]; cbn [bind]; [|discriminate].
      intros H; injection H as <-. cbn. split; lia.
    + cbn [fst snd].
      destruct (py_getitem (JObj m) "newContainerIDs") as [c|e]; cbn [bind];
        [|discriminate].
      destruct (py_len c) as [len|e]; cbn [bind]; [|discriminate].
      destruct (for_each _ _ _) as [sn|e]; cbn [bind]; [|discriminate].
      intros H; injection H as <-. cbn. split; lia.
Qed.

Lemma spaces_loop_counts (l : list json) :
  forall st st',
    for_each each_space l st = Ok st' ->
    n st' = (n st + Z.of_nat (List.length (filter (fun v => negb (has_title v)) l)))%Z
    /\ spaces_count st' = spaces_count st + List.length (filter is_dict l).
Proof.
  induction l as [|v l IH]; intros st st' Hrun.
  - injection Hrun as <-. cbn. split; lia.
  - cbn [for_each] in Hrun.
    destruct (each_space st v) as [st1|e] eqn:Hv; [|discriminate].
    cbn [bind] in Hrun.
    destruct (each_space_counts st st1 v Hv) as [Hn Hc].
    destruct (IH st1 st' Hrun) as [Hn' Hc'].
    cbn [filter]. rewrite Hn', Hc', Hn, Hc.
    destruct (has_title v), (is_dict v); cbn [negb List.length]; split; lia.
Qed.

(** X12. When the loop over the spaces list ends without an exception,
    the number that the next untitled space would get is one more than
    the number of entries that are not a dict with a [title]: identifier
    strings and lists advance the counter as untitled spaces do. The
    count of spaces that is logged is the number of dicts. *)
Theorem counter_counts_every_untitled_entry :
  forall (l : list json) (st : spaces_loop),
    for_each each_space l get_spaces_init = Ok st ->
    n st = (1 + Z.of_nat (List.length (filter (fun v => negb (has_title v)) l)))%Z
    /\ spaces_count st = List.length (filter is_dict l).
Proof.
  intros l st Hrun. exact (spaces_loop_counts l get_spaces_init st Hrun).
Qed.

(** ** Where the bookmarks come from *)

Lemma bookmarks_in_app (a b : list node) :
  flat_map bookmarks_in (a ++ b)%list
  = (flat_map bookmarks_in a ++ flat_map bookmarks_in b)%list.
Proof. apply flat_map_app. Qed.

Lemma add_child_bookmarks (P : json * json -> Prop)
  (recurse : key -> result (list node)) (parent_id : key) (entry : key * obj) :
  (forall k sub, recurse k = Ok sub -> Forall P (flat_map bookmarks_in sub)) ->
  (forall title url,
      has_tab (snd entry) = Ok true ->
      py_or (dict_get (snd entry) "title" JNull) (tab_get (snd entry) "savedTitle")
      = Ok title ->
      tab_get (snd entry) "savedURL" = Ok url ->
      P (title, url)) ->
  forall acc acc',
    add_child recurse parent_id acc entry = Ok acc' ->
    Forall P (flat_map bookmarks_in acc) ->
    Forall P (flat_map bookmarks_in acc').
Proof.
  intros Hrec Htab acc acc'. destruct entry as [k o]. cbn [snd] in Htab.
  unfold add_child.
  destruct (py_eq (dict_get o "parentID" JNull) parent_id).
  2:{ intros H; injection H as <-. auto. }
  destruct (has_tab o) as [[|]|e]; cbn [bind]; try discriminate.
  - destruct (py_or (dict_get o "title" JNull) (tab_get o "savedTitle")) as [t|e];
      cbn [bind]; [|discriminate].
    destruct (tab_get o "savedURL") as [u|e]; cbn [bind]; [|discriminate].
    intros H Hacc; injection H as <-. rewrite bookmarks_in_app.
    apply Forall_app. split; [exact Hacc|].
    cbn. constructor; [|constructor]. now apply Htab.
  - destruct (dict_has o "title").
    2:{ intros H; injection H as <-. auto. }
    destruct (py_getitem (JObj o) "title") as [t|e]; cbn [bind]; [|discriminate].
    destruct (recurse k) as [sub|e] eqn:Hsub; cbn [bind]; [|discriminate].
    intros H Hacc; injection H as <-. rewrite bookmarks_in_app.
    apply Forall_app. split; [exact Hacc|].
    cbn [flat_map bookmarks_in]. rewrite app_nil_r. exact (Hrec k sub Hsub).
Qed.

Lemma recurse_bookmarks (P : json * json -> Prop) (d : index) :
  (forall k o title url,
      In (k, o) d ->
      has_tab o = Ok true ->
      py_or (dict_get o "title" JNull) (tab_get o "savedTitle") = Ok title ->
      tab_get o "savedURL" = Ok url ->
      P (title, url)) ->
  forall fuel parent_id children,
    recurse_into_children fuel d parent_id = Ok children ->
    Forall P (flat_map bookmarks_in children).
Proof.
  intros Htab fuel.
  induction fuel as [|fuel IH]; intros parent_id children Hrun; [discriminate|].
  cbn [recurse_into_children] in Hrun.
  apply (for_each_invariant (add_child (recurse_into_children fuel d) parent_id)
           (fun acc => Forall P (flat_map bookmarks_in acc)) d
           (fun acc entry acc' Hin Hstep =>
              add_child_bookmarks P (recurse_into_children fuel d) parent_id entry
                (fun k sub => IH k sub)
                (fun title url =>
                   Htab (fst entry) (snd entry) title url
                     (eq_ind _ (fun e => In e d) Hin _ (surjective_pairing entry)))
                acc acc' Hstep)
           [] children Hrun).
  constructor.
Qed.

(** X13. Every bookmark of the forest that the builder returns, at any
    depth, stems from a dict of the items list whose payload holds a
    [tab]: its url is the [savedURL] of that tab (the empty string when
    the tab has none) and its title is the item's [title] when that is
    truthy, else the [savedTitle] of the tab. *)
Theorem every_bookmark_is_a_saved_tab :
  forall (fuel : nat) (spaces : spaces_names) (items : list json)
         (forest : list node) (title url : json),
    convert_to_bookmarks fuel spaces (JArr items) = Ok forest ->
    In (title, url) (flat_map bookmarks_in forest) ->
    exists item,
      In (JObj item) items
      /\ has_tab item = Ok true
      /\ py_or (dict_get item "title" JNull) (tab_get item "savedTitle") = Ok title
      /\ tab_get item "savedURL" = Ok url.
Proof.
  intros fuel spaces items forest title url Hrun Hin.
  unfold convert_to_bookmarks in Hrun. cbn [py_iter bind] in Hrun.
  destruct (item_dict items) as [d|e] eqn:Hd; [|discriminate]. cbn [bind] in Hrun.
  set (P := fun b : json * json =>
              exists item,
                In (JObj item) items
                /\ has_tab item = Ok true
                /\ py_or (dict_get item "title" JNull) (tab_get item "savedTitle")
                   = Ok (fst b)
                /\ tab_get item "savedURL" = Ok (snd b)).
  assert (Hall : Forall P (flat_map bookmarks_in forest)).
  { apply (for_each_invariant (add_space fuel d)
             (fun acc => Forall P (flat_map bookmarks_in acc)) (pinned spaces))
      with (s := []) (s' := forest); [|exact Hrun|constructor].
    intros acc space acc' _ Hstep Hacc. unfold add_space in Hstep.
    destruct (recurse_into_children fuel d (KStr (fst space))) as [children|e]
      eqn:Hc; [|discriminate].
    cbn [bind] in Hstep. injection Hstep as <-. rewrite bookmarks_in_app.
    apply Forall_app. split; [exact Hacc|].
    cbn [flat_map bookmarks_in]. rewrite app_nil_r.
    apply (recurse_bookmarks P d) with (fuel := fuel) (parent_id := KStr (fst space));
      [|exact Hc].
    intros k o t u Hko Htab Ht Hu. exists o.
    destruct (item_dict_entries items [] d Hd k o Hko) as [[]|Hitem].
    repeat split; assumption. }
  rewrite Forall_forall in Hall. exact (Hall (title, url) Hin).
Qed.


End Conversion.

(** * The theorems at concrete documents *)

(** C1: the container that holds [global] has spaces and items of its
    own, and the conversion reads those of the container after it. *)
Lemma marked_container_is_not_read :
  convert_json_to_html no_repr 3 ex_marked_document
  = convert_container no_repr 3 ex_next_container
  /\ convert_json_to_html no_repr 3 ex_marked_document
     <> convert_container no_repr 3 ex_marked_container.
Proof.
  split.
  - reflexivity.
  - vm_compute. intros H. inversion H.
Qed.

(** C4 at a folder that holds one bookmark, with room for two nested
    calls. The text is written out line by line, the lines joined by line
    feeds (character 10), with its tabs (character 9) and its double
    quotes (character 34). *)
Lemma serializer_emits_netscape_lines_witness :
  convert_bookmarks_to_html no_repr 2
    [Folder (JStr "Work") [Bookmark (JStr "X") (JStr "https://x")]]
  = Ok (String.concat (String "010"%char EmptyString)
          [ "<!DOCTYPE NETSCAPE-Bookmark-file-1>";
            "<META HTTP-EQUIV=" ++ String "034"%char "Content-Type"
            ++ String "034"%char " CONTENT="
            ++ String "034"%char "text/html; charset=UTF-8"
            ++ String "034"%char ">";
            "<TITLE>Bookmarks</TITLE>";
            "<H1>Bookmarks</H1>";
            "<DL><p>";
            String "009"%char "<DT><H3>Work</H3>";
            String "009"%char "<DL><p>";
            String "009"%char
              (String "009"%char
                 ("<DT><A HREF=" ++ String "034"%char "https://x"
                  ++ String "034"%char ">X</A>"));
            String "009"%char "</DL><p>";
            "</DL><p>" ])
  /\ (forall s, py_str no_repr (JStr s) = s).
Proof.
  apply (serializer_emits_netscape_lines no_repr 2
           [Folder (JStr "Work") [Bookmark (JStr "X") (JStr "https://x")]]).
  vm_compute. lia.
Defined.

(** C1 at a document whose first container is the [global] marker. *)
Lemma reads_container_after_global_witness :
  convert_json_to_html no_repr 3 ex_document = convert_container no_repr 3 ex_container.
Proof.
  apply (reads_container_after_global no_repr 3 ex_document ex_sidebar []
           (marker "global") [ex_container]).
  - reflexivity.
  - reflexivity.
  - constructor.
  - reflexivity.
Defined.

(** C2 at a document whose only container has no [global] in it. *)
Lemma no_global_container_no_output_witness :
  convert_json_to_html no_repr 3 ex_plain_document = Error ValueError
  /\ main no_repr 3 "2024_01_02" None ex_plain_document [] = ([], Error ValueError)
  /\ (forall data e,
        convert_json_to_html no_repr 3 data = Error e ->
        main no_repr 3 "2024_01_02" None data [] = ([], Error e)).
Proof.
  apply (no_global_container_no_output no_repr 3 "2024_01_02" None []
           ex_plain_document ex_plain_sidebar
           [JObj [("spaces", JArr []); ("items", JArr [])]]).
  - reflexivity.
  - reflexivity.
  - constructor; [reflexivity | constructor].
Defined.


(** C5: the item that carries [A] has neither tab nor title, the saved tab
    names it as its parent, and the tab is in the output all the same,
    because [A] is the root identifier of the pinned space. *)
Lemma child_of_bare_root_is_emitted :
  is_dropped ex_item_root = true
  /\ parent_key ex_item_tab = item_key ex_item_root
  /\ convert_to_bookmarks 3 ex_pinned_work (JArr ex_items)
     = Ok [Folder (JStr "Work") [Bookmark (JStr "X") (JStr "https://x")]].
Proof.
  repeat split.
Qed.

(** C5 at a bare item under the pinned root and a saved tab under the
    bare item: the output is that of the list without the two. *)
Lemma dropped_items_leave_no_trace_witness :
  convert_to_bookmarks 3 ex_pinned_work
    (JArr (without [KStr "C"; KStr "D"]
             [JObj ex_item_tab; JObj ex_item_bare; JObj ex_item_under_bare]))
  = convert_to_bookmarks 3 ex_pinned_work
      (JArr [JObj ex_item_tab; JObj ex_item_bare; JObj ex_item_under_bare])
  /\ (forall recurse parent_id children k o,
        is_dropped o = true ->
        add_child recurse parent_id children (k, o) = Ok children).
Proof.
  apply (dropped_items_leave_no_trace 3 ex_pinned_work
           [JObj ex_item_tab; JObj ex_item_bare; JObj ex_item_under_bare]
           [KStr "C"; KStr "D"]).
  intros o k Hin Hkey Hgone.
  destruct Hin as [H | [H | [H | []]]]; injection H as <-.
  - injection Hkey as <-. discriminate Hgone.
  - left. reflexivity.
  - right. exists (KStr "C"). repeat split.
Defined.

(** C6 at a pinned space whose root no item names as its parent. *)
Lemma rootless_pinned_space_gets_empty_folder_witness :
  convert_to_bookmarks 1 {| pinned := [("Z", JStr "Empty")]; unpinned := [] |}
    (JArr ex_items)
  = Ok [Folder (JStr "Empty") []].
Proof.
  apply (rootless_pinned_space_gets_empty_folder 0 [] [] [] "Z" (JStr "Empty") ex_items).
  intros o Hin.
  destruct Hin as [H | [H | [H | [H | []]]]]; try discriminate H;
    injection H as <-; reflexivity.
Defined.

(** C7 at a well-formed space followed by one whose list ends with the
    pinned marker. *)
Lemma trailing_marker_is_an_error_witness :
  (forall st,
      each_space no_repr st
        (JObj [("newContainerIDs", JArr [JStr "A"; marker "pinned"])])
      = Error IndexError)
  /\ exists e,
       get_spaces no_repr
         (JArr [ex_space_work;
                JObj [("newContainerIDs", JArr [JStr "A"; marker "pinned"])]])
       = Error e
       /\ (forall st,
              for_each (each_space no_repr) [ex_space_work] get_spaces_init = Ok st ->
              e = IndexError).
Proof.
  apply (trailing_marker_is_an_error no_repr [ex_space_work] []
           [("newContainerIDs", JArr [JStr "A"; marker "pinned"])]
           [JStr "A"] [("pinned", JObj [])]).
  - reflexivity.
  - reflexivity.
Defined.

(** C10: the list holds a dict without [id], and the builder fails with
    [TypeError], raised by the unhashable [id] of the dict before it. *)
Lemma unhashable_id_comes_first :
  dict_lookup "id" (@nil (string * json)) = None
  /\ convert_to_bookmarks 1 ex_pinned_work (JArr [JObj [("id", JArr [])]; JObj []])
     = Error TypeError.
Proof.
  split; reflexivity.
Qed.

(** C10 at a list whose last entry is a dict without [id]. *)
Lemma idless_item_fails_index_witness :
  (exists e,
      convert_to_bookmarks 1 ex_pinned_work
        (JArr [JStr "A"; JObj ex_item_root; JObj [("title", JStr "no id")]]) = Error e
      /\ (e = KeyError \/ e = TypeError)
      /\ (forallb indexable [JStr "A"; JObj ex_item_root] = true -> e = KeyError)
      /\ (forallb has_id [JStr "A"; JObj ex_item_root] = true ->
          forallb indexable [JStr "A"; JObj ex_item_root] = false ->
          e = TypeError))
  /\ (forall x a b, is_dict x = false ->
        item_dict (a ++ x :: b) = item_dict (a ++ b)).
Proof.
  apply (idless_item_fails_index 1 ex_pinned_work [JStr "A"; JObj ex_item_root]
           [("title", JStr "no id")] []).
  reflexivity.
Defined.


(** ** Further properties at concrete documents *)

(** X1 at the example items under the space [Work]. *)
Lemma one_folder_per_pinned_space_witness :
  exists l d,
    py_iter (JArr ex_items) = Ok l /\ item_dict l = Ok d
    /\ Forall2 (fun space item =>
                  exists children,
                    recurse_into_children 1 d (KStr (fst space)) = Ok children
                    /\ item = Folder (snd space) children)
         (pinned ex_pinned_work)
         [Folder (JStr "Work") [Bookmark (JStr "X") (JStr "https://x")]].
Proof.
  apply (one_folder_per_pinned_space 1 ex_pinned_work (JArr ex_items)
           [Folder (JStr "Work") [Bookmark (JStr "X") (JStr "https://x")]]).
  reflexivity.
Defined.

(** X2 at a titled item under [A] that holds one saved tab. *)
Lemma titled_item_becomes_folder_witness :
  recurse_into_children 2
    [(KStr "F", ex_item_folder); (KStr "G", ex_item_in_folder)] (KStr "A")
  = Ok [Folder (JStr "News") [Bookmark (JStr "Saved") (JStr "https://g")]].
Proof.
  apply (titled_item_becomes_folder 1 [] [(KStr "G", ex_item_in_folder)]
           (KStr "F") ex_item_folder (JStr "News") (KStr "A")).
  - reflexivity.
  - reflexivity.
  - reflexivity.
Defined.

(** X3 at a folder that is its own parent: no recursion limit lets the
    expansion of its identifier return. *)
Lemma cycle_of_folders_never_returns_witness :
  ~ exists fuel children,
      recurse_into_children fuel ex_loop_index (KStr "L") = Ok children.
Proof.
  intros [fuel [children Hrun]].
  refine (cycle_of_folders_never_returns ex_loop_index (fun k => k = KStr "L") _
            fuel (KStr "L") children eq_refl Hrun).
  intros k ->. exists (KStr "L"), ex_item_loop.
  split; [left; reflexivity|]. repeat split.
Defined.

(** X5 at the example items under the space [Work], built with room for
    one call. *)
Lemma built_forest_fits_one_call_more_witness :
  forest_height [Folder (JStr "Work") [Bookmark (JStr "X") (JStr "https://x")]] <= 1
  /\ convert_bookmarks_to_html no_repr 2
       [Folder (JStr "Work") [Bookmark (JStr "X") (JStr "https://x")]]
     = Ok (serialize no_repr
             [Folder (JStr "Work") [Bookmark (JStr "X") (JStr "https://x")]]).
Proof.
  apply (built_forest_fits_one_call_more no_repr 1 ex_pinned_work (JArr ex_items)
           [Folder (JStr "Work") [Bookmark (JStr "X") (JStr "https://x")]]).
  reflexivity.
Defined.

(** X6 at the example document, converted with room for two calls and
    for a thousand more. *)
Lemma larger_limit_same_outcome_witness :
  convert_json_to_html no_repr (2 + 1000) ex_document
  = convert_json_to_html no_repr 2 ex_document.
Proof.
  apply (larger_limit_same_outcome no_repr 2 1000 ex_document).
  vm_compute. discriminate.
Defined.

(** X7 at a list in which two items carry the identifier [A]. *)
Lemma index_keeps_last_duplicate_witness :
  NoDup (map fst [(KStr "A", ex_item_root_again); (KStr "B", ex_item_tab)])
  /\ forall k,
       index_lookup k [(KStr "A", ex_item_root_again); (KStr "B", ex_item_tab)]
       = last_entry k (item_entries ex_items_twice).
Proof.
  apply (index_keeps_last_duplicate ex_items_twice
           [(KStr "A", ex_item_root_again); (KStr "B", ex_item_tab)]).
  reflexivity.
Defined.

(** X8 at a saved tab under an item with neither tab nor title. *)
Lemma children_of_non_folders_are_not_exported_witness :
  recurse_into_children 3
    (filter (fun e => negb (py_eq (dict_get (snd e) "parentID" JNull) (KStr "C")))
       [(KStr "B", ex_item_tab); (KStr "C", ex_item_bare); (KStr "D", ex_item_under_bare)])
    (KStr "A")
  = recurse_into_children 3
      [(KStr "B", ex_item_tab); (KStr "C", ex_item_bare); (KStr "D", ex_item_under_bare)]
      (KStr "A").
Proof.
  apply (children_of_non_folders_are_not_exported 3
           [(KStr "B", ex_item_tab); (KStr "C", ex_item_bare);
            (KStr "D", ex_item_under_bare)]
           (KStr "C") (KStr "A")).
  - intros o Hin.
    destruct Hin as [H | [H | [H | []]]]; try discriminate H.
    injection H as <-. reflexivity.
  - discriminate.
Defined.

(** X9 at the spaces list of the example container. *)
Lemma wellformed_spaces_are_resolved_witness :
  exists mapping, get_spaces no_repr (JArr [JStr "S1"; ex_space_work]) = Ok mapping.
Proof.
  apply (wellformed_spaces_are_resolved no_repr [JStr "S1"; ex_space_work]).
  reflexivity.
Defined.

(** X10 at an untitled space that names the root [A] after the space
    [Work] did. *)
Lemma last_space_names_its_roots_witness :
  dict_lookup "A" [("A", JStr "Space 2")] = Some (JStr "Space 2").
Proof.
  apply (last_space_names_its_roots no_repr [JStr "S1"; ex_space_work]
           ex_space_untitled
           {| names := ex_pinned_work; spaces_count := 1; n := 2 |}
           [marker "pinned"; JStr "A"] 0 [("pinned", JObj [])] (JStr "A")
           {| pinned := [("A", JStr "Space 2")]; unpinned := [("U", JStr "Work")] |}).
  - reflexivity.
  - reflexivity.
  - reflexivity.
  - reflexivity.
  - reflexivity.
  - reflexivity.
Defined.

(** X11 at a folder that holds one bookmark, traversed at level one
    after the last line of the header: the text with its line feeds
    (character 10), tabs (character 9) and double quotes (character 34)
    written out, and the lines appended. *)
Lemma traversal_indents_by_level_witness :
  traverse_dict no_repr 2
    [Folder (JStr "Work") [Bookmark (JStr "X") (JStr "https://x")]] "<DL><p>" 1
  = Ok (String.concat (String "010"%char EmptyString)
          [ "<DL><p>";
            String "009"%char "<DT><H3>Work</H3>";
            String "009"%char "<DL><p>";
            String "009"%char
              (String "009"%char
                 ("<DT><A HREF=" ++ String "034"%char "https://x"
                  ++ String "034"%char ">X</A>"));
            String "009"%char "</DL><p>" ])
  /\ Forall (fun line =>
               exists k rest,
                 1 <= k <= 1 + 1
                 /\ line = string_of_list_ascii (repeat "009"%char k) ++ "<" ++ rest)
       [ String "009"%char "<DT><H3>Work</H3>";
         String "009"%char "<DL><p>";
         String "009"%char
           (String "009"%char
              ("<DT><A HREF=" ++ String "034"%char "https://x"
               ++ String "034"%char ">X</A>"));
         String "009"%char "</DL><p>" ].
Proof.
  apply (traversal_indents_by_level no_repr 2
           [Folder (JStr "Work") [Bookmark (JStr "X") (JStr "https://x")]]
           "<DL><p>" 1).
  vm_compute. lia.
Defined.

(** X12 at the spaces list of the example container: the identifier
    string before the space [Work] has advanced the counter. *)
Lemma counter_counts_every_untitled_entry_witness :
  n {| names := ex_pinned_work; spaces_count := 1; n := 2 |}
  = (1 + Z.of_nat (List.length (filter (fun v => negb (has_title v))
                                  [JStr "S1"; ex_space_work])))%Z
  /\ spaces_count {| names := ex_pinned_work; spaces_count := 1; n := 2 |}
     = List.length (filter is_dict [JStr "S1"; ex_space_work]).
Proof.
  apply (counter_counts_every_untitled_entry no_repr [JStr "S1"; ex_space_work]
           {| names := ex_pinned_work; spaces_count := 1; n := 2 |}).
  reflexivity.
Defined.

(** X13 at the bookmark of the example items. *)
Lemma every_bookmark_is_a_saved_tab_witness :
  exists item,
    In (JObj item) ex_items
    /\ has_tab item = Ok true
    /\ py_or (dict_get item "title" JNull) (tab_get item "savedTitle") = Ok (JStr "X")
    /\ tab_get item "savedURL" = Ok (JStr "https://x").
Proof.
  apply (every_bookmark_is_a_saved_tab 1 ex_pinned_work ex_items
           [Folder (JStr "Work") [Bookmark (JStr "X") (JStr "https://x")]]
           (JStr "X") (JStr "https://x")).
  - reflexivity.
  - left. reflexivity.
Defined.

(** X14 at a list in which the identifier [A] occurs twice, around [B],
    and at the items list of the example document, in which no identifier
    does. *)
Lemma index_iterates_in_source_order_witness :
  (map fst [(KStr "A", ex_item_root_again); (KStr "B", ex_item_tab)]
   = first_occurrences (map fst (item_entries ex_items_twice))
   /\ (NoDup (map fst (item_entries ex_items_twice)) ->
       [(KStr "A", ex_item_root_again); (KStr "B", ex_item_tab)]
       = item_entries ex_items_twice
       /\ forall earlier later fuel parent_id,
            ex_items_twice = (earlier ++ later)%list ->
            recurse_into_children (S fuel)
              [(KStr "A", ex_item_root_again); (KStr "B", ex_item_tab)] parent_id
            = first <- for_each
                         (add_child
                            (recurse_into_children fuel
                               [(KStr "A", ex_item_root_again); (KStr "B", ex_item_tab)])
                            parent_id)
                         (item_entries earlier) [] ;;
              last <- for_each
                        (add_child
                           (recurse_into_children fuel
                              [(KStr "A", ex_item_root_again); (KStr "B", ex_item_tab)])
                           parent_id)
                        (item_entries later) [] ;;
              Ok (first ++ last)%list))
  /\ (map fst ex_index = first_occurrences (map fst (item_entries ex_items))
      /\ (NoDup (map fst (item_entries ex_items)) ->
          ex_index = item_entries ex_items
          /\ forall earlier later fuel parent_id,
               ex_items = (earlier ++ later)%list ->
               recurse_into_children (S fuel) ex_index parent_id
               = first <- for_each (add_child (recurse_into_children fuel ex_index)
                                      parent_id)
                            (item_entries earlier) [] ;;
                 last <- for_each (add_child (recurse_into_children fuel ex_index)
                                     parent_id)
                           (item_entries later) [] ;;
                 Ok (first ++ last)%list)).
Proof.
  split.
  - apply (index_iterates_in_source_order ex_items_twice
             [(KStr "A", ex_item_root_again); (KStr "B", ex_item_tab)]).
    reflexivity.
  - apply (index_iterates_in_source_order ex_items ex_index).
    reflexivity.
Defined.
